(** * Billing metrics pipeline: collection, snapshot and delivery

  A shallow embedding of [scripts/collect_billing_data.py] and
  [scripts/push_to_prometheus.py], and the properties of the pipeline
  proved on it.

  Data.
  - Python [str] values are Rocq strings; one [ascii] stands for one code
    point below 256.
  - Python [float] values are the kernel's binary64 floats.
  - A [dict] iterated in insertion order (labels, the grouping table of
    [push_metrics]) is an association list; the files and the process
    environment are finite maps.  Directories are not modelled: opening a
    path for writing succeeds, and [os.makedirs] fails on the empty name
    only.

  Effects.
  - Code that talks to the outside (environment, files, HTTP, the clock)
    runs in the state monad [IO] over [World].  The gateway is an oracle that
    answers a request given the exchanges so far; every exchange is logged.
  - An exception that a handler of the source turns into a value is
    modelled by that value ([False], the empty list, the metrics built so
    far).
  - Calls to [logger] change no result and are left out.

  Libraries.  [json], [urllib] and the text an f-string prints for a value
  are interfaces ([JsonLib], [PyLib], [PyStr]); the integers have the
  instance of [PyStr] that [str(int)] gives.

  Scope.  Of the collector, the cost-by-service query, the budget query and
  the snapshot writer are embedded; of the delivery script, everything.

  The file has four parts: the model, the notions the statements use, a
  concrete runtime with data for the examples, and the properties. *)

From Stdlib Require Import String Ascii List ZArith NArith Bool Floats Lia.
From stdpp Require Import base option list strings pretty countable gmap.
Import ListNotations.

(** A decimal literal denotes the nearest binary64 value, as in Python. *)
#[local] Set Warnings "-inexact-float".

(** String concatenation computes on a literal first argument. *)
Arguments String.append !_ _ / : simpl nomatch.

(** ** Python string primitives *)

Module PyStrings.

Definition dquote : ascii := "034"%char.
Definition backslash : ascii := "\"%char.
Definition newline : ascii := "010"%char.
Definition hash : ascii := "#"%char.
Definition slash : ascii := "/"%char.

Definition between (lo hi : N) (c : ascii) : bool :=
  let n := N_of_ascii c in (lo <=? n)%N && (n <=? hi)%N.

Definition is_digit (c : ascii) : bool := between 48 57 c.
Definition is_upper (c : ascii) : bool := between 65 90 c.
Definition is_lower (c : ascii) : bool := between 97 122 c.

(** [re.sub(r'[^...]', repl, s)] for a negated character class: every
    character outside the class is replaced by [repl]. *)
Fixpoint re_sub_not_in (in_class : ascii -> bool) (repl : string) (s : string)
  : string :=
  match s with
  | EmptyString => EmptyString
  | String c rest =>
      if in_class c
      then String c (re_sub_not_in in_class repl rest)
      else repl +:+ re_sub_not_in in_class repl rest
  end.

(** [s.replace(old, new)] where [old] is a single character. *)
Fixpoint replace_char (old : ascii) (new : string) (s : string) : string :=
  match s with
  | EmptyString => EmptyString
  | String c rest =>
      if Ascii.eqb c old
      then new +:+ replace_char old new rest
      else String c (replace_char old new rest)
  end.

(** [sep.join(parts)] *)
Definition join (sep : string) (parts : list string) : string :=
  String.concat sep parts.

(** [s.split(sep)] for a single-character separator: never empty. *)
Fixpoint split (sep : ascii) (s : string) : list string :=
  match s with
  | EmptyString => [EmptyString]
  | String c rest =>
      if Ascii.eqb c sep
      then EmptyString :: split sep rest
      else match split sep rest with
           | piece :: pieces => String c piece :: pieces
           | [] => [String c EmptyString]
           end
  end.

(** [s.startswith(c)] for a single character. *)
Definition startswith (c : ascii) (s : string) : bool :=
  match s with
  | String c' _ => Ascii.eqb c' c
  | EmptyString => false
  end.

(** [s.rstrip(c)] for a single character. *)
Fixpoint rstrip (c : ascii) (s : string) : string :=
  match s with
  | EmptyString => EmptyString
  | String c' rest =>
      match rstrip c rest with
      | EmptyString => if Ascii.eqb c' c then EmptyString else String c' EmptyString
      | kept => String c' kept
      end
  end.

(** Truth value of a string: empty is false. *)
Definition truthy (s : string) : bool :=
  match s with EmptyString => false | _ => true end.

Definition contains (c : ascii) (s : string) : bool :=
  existsb (Ascii.eqb c) (list_ascii_of_string s).

End PyStrings.
Import PyStrings.

(** ** The metric record of the delivery stage

  The delivery stage works on the dictionaries that [json.load] returns.
  The keys [labels] and [help_text] are read with [.get] and a default, so
  they may be absent.  The type of [value] is [Any]; what matters to the
  formatter is the text an f-string prints for it. *)

Class PyStr (V : Type) := py_str : V -> string.

#[export] Instance int_py_str : PyStr Z := fun z => pretty z.

Record MetricData (V : Type) := mkMetricData {
  md_name : string;
  md_value : V;
  md_labels : option (list (string * string));
  md_timestamp : string;
  md_help_text : option string;
}.
Arguments mkMetricData {V}.
Arguments md_name {V}.
Arguments md_value {V}.
Arguments md_labels {V}.
Arguments md_timestamp {V}.
Arguments md_help_text {V}.

(** ** PrometheusMetricFormatter *)

Module PrometheusMetricFormatter.

Definition metric_name_char (c : ascii) : bool :=
  is_lower c || is_upper c || is_digit c
  || Ascii.eqb c "_"%char || Ascii.eqb c ":"%char.

Definition label_name_char (c : ascii) : bool :=
  is_lower c || is_upper c || is_digit c || Ascii.eqb c "_"%char.

Definition sanitize_metric_name (name : string) : string :=
  re_sub_not_in metric_name_char "_" name.

Definition sanitize_label_name (name : string) : string :=
  re_sub_not_in label_name_char "_" name.

Definition sanitize_label_value (value : string) : string :=
  replace_char dquote (String backslash (String dquote EmptyString))
    (replace_char backslash (String backslash (String backslash EmptyString))
       value).

Section Format.
Context {V : Type} `{PyStr V}.

Definition label_pair (kv : string * string) : string :=
  sanitize_label_name (fst kv)
  +:+ "=" +:+ String dquote (sanitize_label_value (snd kv))
  +:+ String dquote EmptyString.

Definition labels_str (labels : list (string * string)) : string :=
  let joined := join "," (map label_pair labels) in
  if truthy joined then "{" +:+ joined +:+ "}" else joined.

Definition data_line (metric_data : MetricData V) : string :=
  sanitize_metric_name (md_name metric_data)
  +:+ labels_str (default [] (md_labels metric_data))
  +:+ " " +:+ py_str (md_value metric_data).

Definition format_lines (metric_data : MetricData V) : list string :=
  let name := sanitize_metric_name (md_name metric_data) in
  let help_text := default "" (md_help_text metric_data) in
  (if truthy help_text
   then ["# HELP " +:+ name +:+ " " +:+ help_text;
         "# TYPE " +:+ name +:+ " gauge"]
   else [])
  ++ [data_line metric_data].

Definition format_metric_for_pushgateway (metric_data : MetricData V)
  : string :=
  join (String newline EmptyString) (format_lines metric_data).

End Format.

End PrometheusMetricFormatter.
Import PrometheusMetricFormatter.

(** ** datetime: the naive timestamps of [datetime.datetime.now()] *)

Module Datetime.

Record datetime := mkDatetime {
  year : N; month : N; day : N;
  hour : N; minute : N; second : N; microsecond : N;
}.

Definition is_leap (y : N) : bool :=
  ((y mod 4 =? 0) && negb (y mod 100 =? 0) || (y mod 400 =? 0))%N.

Definition days_in_month (y m : N) : N :=
  if (m =? 2)%N then (if is_leap y then 29 else 28)%N
  else if ((m =? 4) || (m =? 6) || (m =? 9) || (m =? 11))%N then 30%N
  else 31%N.

(** The ranges the [datetime] constructor enforces. *)
Definition valid (d : datetime) : bool :=
  ((1 <=? year d) && (year d <=? 9999)
   && (1 <=? month d) && (month d <=? 12)
   && (1 <=? day d) && (day d <=? days_in_month (year d) (month d))
   && (hour d <? 24) && (minute d <? 60) && (second d <? 60)
   && (microsecond d <? 1000000))%N.

Definition digit_char (d : N) : ascii := ascii_of_N (48 + d).

(** ["%0<width>d" % n], for [n] below [10 ^ width]. *)
Fixpoint zero_pad (width : nat) (n : N) : string :=
  match width with
  | O => EmptyString
  | S w =>
      String (digit_char (n / 10 ^ N.of_nat w))
             (zero_pad w (n mod 10 ^ N.of_nat w))
  end.

(** [d.isoformat()]: the fraction is printed only when it is not zero. *)
Definition isoformat (d : datetime) : string :=
  zero_pad 4 (year d) +:+ "-" +:+ zero_pad 2 (month d) +:+ "-"
  +:+ zero_pad 2 (day d) +:+ "T" +:+ zero_pad 2 (hour d) +:+ ":"
  +:+ zero_pad 2 (minute d) +:+ ":" +:+ zero_pad 2 (second d)
  +:+ (if (microsecond d =? 0)%N then EmptyString
      else "." +:+ zero_pad 6 (microsecond d)).

Fixpoint read_digits (width : nat) (acc : N) (s : string)
  : option (N * string) :=
  match width with
  | O => Some (acc, s)
  | S w =>
      match s with
      | String c rest =>
          if is_digit c
          then read_digits w (acc * 10 + (N_of_ascii c - 48)) rest
          else None
      | EmptyString => None
      end
  end.

Definition expect (c : ascii) (s : string) : option string :=
  match s with
  | String c' rest => if Ascii.eqb c' c then Some rest else None
  | EmptyString => None
  end.

(** Reading the canonical text back: the inverse the snapshot's consumers
    apply to the [timestamp] field (the form [isoformat] prints, as
    [datetime.fromisoformat] reads it). *)
Definition fromisoformat (s : string) : option datetime :=
  '(y, s) ← read_digits 4 0 s; s ← expect "-" s;
  '(mo, s) ← read_digits 2 0 s; s ← expect "-" s;
  '(d, s) ← read_digits 2 0 s; s ← expect "T" s;
  '(h, s) ← read_digits 2 0 s; s ← expect ":" s;
  '(mi, s) ← read_digits 2 0 s; s ← expect ":" s;
  '(sec, s) ← read_digits 2 0 s;
  '(us, s) ← match s with
             | EmptyString => Some (0%N, EmptyString)
             | String c rest =>
                 if Ascii.eqb c "." then read_digits 6 0 rest else None
             end;
  let d := mkDatetime y mo d h mi sec us in
  if truthy s then None else if valid d then Some d else None.

End Datetime.
Import Datetime.

(** ** The outside world of one process run *)

Inductive Method := GET | POST | DELETE.

Record Request := mkRequest {
  rq_method : Method;
  rq_url : string;
  rq_headers : list (string * string);
  rq_body : string;
}.

(** What a call on the [requests] session comes back with: a response, or
    one of the exceptions the callers catch. *)
Inductive Outcome :=
| Response (status_code : Z) (text : string)
| RaisedTimeout
| RaisedConnectionError
| RaisedOther.

Record World := mkWorld {
  w_env : gmap string string;
  w_files : gmap string string;
  (** the gateway: its answer to a request, given the exchanges so far *)
  w_gateway : list (Request * Outcome) -> Request -> Outcome;
  (** the exchanges of this run, oldest first *)
  w_exchanges : list (Request * Outcome);
  w_now : datetime;
  (** calls of [time.sleep(0.1)] *)
  w_sleeps : nat;
}.

Definition IO (A : Type) : Type := World -> A * World.

#[export] Instance IO_ret : MRet IO := fun A a w => (a, w).
#[export] Instance IO_bind : MBind IO :=
  fun A B f m w => let '(a, w') := m w in f a w'.

Module Sys.

(** [os.getenv(name)] *)
Definition getenv (name : string) : IO (option string) :=
  fun w => (w_env w !! name, w).

(** [os.getenv(name, default)] *)
Definition getenv_default (name default_value : string) : IO string :=
  fun w => (default default_value (w_env w !! name), w).

(** [open(path, 'r').read()]; [None] is [FileNotFoundError]. *)
Definition read_file (path : string) : IO (option string) :=
  fun w => (w_files w !! path, w).

(** [open(path, 'w').write(text)] *)
Definition write_file (path text : string) : IO unit :=
  fun w => (tt, mkWorld (w_env w) (<[path := text]> (w_files w)) (w_gateway w)
                        (w_exchanges w) (w_now w) (w_sleeps w)).

(** One call on the session: the gateway answers, the exchange is recorded. *)
Definition http_send (rq : Request) : IO Outcome :=
  fun w =>
    let o := w_gateway w (w_exchanges w) rq in
    (o, mkWorld (w_env w) (w_files w) (w_gateway w)
                (w_exchanges w ++ [(rq, o)]) (w_now w) (w_sleeps w)).

(** [datetime.datetime.now()] *)
Definition now : IO datetime := fun w => (w_now w, w).

(** [time.sleep(0.1)] *)
Definition sleep : IO unit :=
  fun w => (tt, mkWorld (w_env w) (w_files w) (w_gateway w)
                        (w_exchanges w) (w_now w) (S (w_sleeps w))).

(** [posixpath.dirname]: everything up to the last slash, without trailing
    slashes unless it is made of slashes only. *)
Fixpoint upto_last (c : ascii) (s : string) : string :=
  match s with
  | EmptyString => EmptyString
  | String c' rest =>
      if Ascii.eqb c' c || contains c rest
      then String c' (upto_last c rest)
      else EmptyString
  end.

Definition dirname (p : string) : string :=
  let head := upto_last slash p in
  if truthy head && negb (forallb (Ascii.eqb slash) (list_ascii_of_string head))
  then rstrip slash head
  else head.

End Sys.

(** ** Library calls the scripts rely on

    [json] and [urllib] are not part of the repository.  The snapshot codec
    is an interface: [json_dump] is [json.dump(data, f, indent=2,
    default=str)] on a list of metric dictionaries, and [json_load] is
    [json.load]; [None] stands for a document [json.load] rejects
    ([JSONDecodeError]). *)

Class JsonLib (V : Type) := {
  json_dump : list (MetricData V) -> string;
  json_load : string -> option (list (MetricData V));
}.

(** [json.load] reads back what [json.dump] wrote. *)
Class JsonRoundTrip (V : Type) `{JsonLib V} : Prop :=
  json_load_dump : forall data, json_load (json_dump data) = Some data.

Record Summary := mkSummary {
  sm_timestamp : string;
  sm_total_metrics : nat;
  sm_pushgateway_url : string;
  sm_job_name : string;
  sm_instance_name : string;
  sm_status : string;
}.

Class PyLib := {
  (** [urllib.parse.urljoin] *)
  urljoin : string -> string -> string;
  (** [json.dump(summary, f, indent=2)] *)
  json_dump_summary : Summary -> string;
}.

(** ** PrometheusPusher *)

Module PrometheusPusher.

Record Pusher := mkPusher {
  pushgateway_url : string;
  job_name : string;
}.

(** [__init__] *)
Definition init (url : string) (job : string) : Pusher :=
  mkPusher (rstrip slash url) job.

Section Push.
Context {V : Type} `{PyStr V}.

(** The grouping table of [push_metrics]: a new name is appended at the
    end, a known name gets the metric appended to its list. *)
Fixpoint group_add (metric : MetricData V)
    (grouped : list (string * list (MetricData V)))
  : list (string * list (MetricData V)) :=
  match grouped with
  | [] => [(md_name metric, [metric])]
  | (metric_name, metrics_list) :: others =>
      if String.eqb metric_name (md_name metric)
      then (metric_name, metrics_list ++ [metric]) :: others
      else (metric_name, metrics_list) :: group_add metric others
  end.

Definition grouped_metrics (metrics_data : list (MetricData V))
  : list (string * list (MetricData V)) :=
  fold_left (fun grouped metric => group_add metric grouped) metrics_data [].

(** The lines one instance contributes: its formatted text, split at the
    line breaks, without the lines that start with [#]. *)
Definition instance_lines (metric : MetricData V) : list string :=
  filter (fun line => negb (startswith hash line))
         (split newline (format_metric_for_pushgateway metric)).

Definition group_lines (group : string * list (MetricData V)) : list string :=
  let '(metric_name, metrics_list) := group in
  match metrics_list with
  | [] => []
  | first_metric :: _ =>
      let help_text := default "" (md_help_text first_metric) in
      (if truthy help_text
       then ["# HELP " +:+ metric_name +:+ " " +:+ help_text;
             "# TYPE " +:+ metric_name +:+ " gauge"]
       else [])
      ++ flat_map instance_lines metrics_list
  end.

(** [formatted_metrics] as it stands before the final join. *)
Definition formatted_metrics (metrics_data : list (MetricData V))
  : list string :=
  flat_map group_lines (grouped_metrics metrics_data).

Definition metrics_payload (metrics_data : list (MetricData V)) : string :=
  join (String newline EmptyString) (formatted_metrics metrics_data).

Definition job_url (self : Pusher) (instance : option string) : string :=
  join "/"
    ([pushgateway_url self; "metrics"; "job"; job_name self]
     ++ match instance with
        | Some i => if truthy i then ["instance"; i] else []
        | None => []
        end).

Definition push_request (self : Pusher) (metrics_data : list (MetricData V))
    (instance : option string) : Request :=
  mkRequest POST (job_url self instance)
            [("Content-Type", "text/plain; version=0.0.4")]
            (metrics_payload metrics_data).

Definition is_status (code : Z) (o : Outcome) : bool :=
  match o with
  | Response status_code _ => (status_code =? code)%Z
  | _ => false
  end.

Definition push_metrics (self : Pusher) (metrics_data : list (MetricData V))
    (instance : option string) : IO bool :=
  match metrics_data with
  | [] => mret true
  | _ =>
      response ← Sys.http_send (push_request self metrics_data instance);
      mret (is_status 200 response)
  end.

(** The loop of [push_metrics_individually]; [i] is the index that
    [enumerate] gives. *)
Fixpoint push_each (self : Pusher) (instance : option string) (i : nat)
    (metrics_data : list (MetricData V)) (success_count : nat) : IO nat :=
  match metrics_data with
  | [] => mret success_count
  | metric :: rest =>
      success ← push_metrics self [metric] instance;
      let success_count :=
        if (success : bool) then S success_count else success_count in
      _ ← (if (0 <? i) && (i mod 10 =? 0) then Sys.sleep else mret tt);
      push_each self instance (S i) rest success_count
  end.

Definition push_metrics_individually (self : Pusher)
    (metrics_data : list (MetricData V)) (instance : option string) : IO bool :=
  success_count ← push_each self instance 0 metrics_data 0;
  mret (0 <? success_count).

End Push.

Definition delete_metrics (self : Pusher) (instance : option string) : IO bool :=
  response ← Sys.http_send (mkRequest DELETE (job_url self instance) [] "");
  mret (is_status 202 response).

Definition health_check `{PyLib} (self : Pusher) : IO bool :=
  response ← Sys.http_send
               (mkRequest GET (urljoin (pushgateway_url self) "/-/healthy") [] "");
  mret (is_status 200 response).

End PrometheusPusher.
Import PrometheusPusher.

(** ** The delivery script's module-level functions *)

Section Delivery.
Context {V : Type} `{PyStr V} `{JsonLib V} `{PyLib}.

Definition load_metrics_from_file (filename : string)
  : IO (list (MetricData V)) :=
  content ← Sys.read_file filename;
  match content with
  | None => mret []
  | Some text =>
      match json_load text with
      | None => mret []
      | Some metrics_data => mret metrics_data
      end
  end.

Definition main : IO bool :=
  pushgateway_url ← Sys.getenv "PROMETHEUS_PUSHGATEWAY_URL";
  job_name ← Sys.getenv_default "PROMETHEUS_JOB_NAME" "aws-billing-collector";
  instance_name ← Sys.getenv_default "PROMETHEUS_INSTANCE_NAME" "github-actions";
  if negb (truthy (default "" pushgateway_url)) then mret false
  else
    let pushgateway_url := default "" pushgateway_url in
    metrics_data ← load_metrics_from_file "data/billing_metrics.json";
    match metrics_data with
    | [] => mret false
    | _ =>
        let pusher := PrometheusPusher.init pushgateway_url job_name in
        _ ← health_check pusher;
        success ← push_metrics pusher metrics_data (Some instance_name);
        success ← (if (success : bool) then mret true
                   else push_metrics_individually pusher metrics_data
                          (Some instance_name));
        if (success : bool) then
          timestamp ← Sys.now;
          _ ← Sys.write_file "data/push_summary.json"
                (json_dump_summary
                   (mkSummary (isoformat timestamp) (length metrics_data)
                              pushgateway_url job_name instance_name "success"));
          mret true
        else mret false
    end.

End Delivery.

(** ** The collector: [AWSBillingCollector] *)

Module Collector.

Record BillingMetric := mkBillingMetric {
  bm_name : string;
  bm_value : float;
  bm_labels : list (string * string);
  bm_timestamp : datetime;
  bm_help_text : string;
}.

(** A call on a boto3 client: its response, or an exception. *)
Inductive ApiResult (A : Type) :=
| ApiOk (response : A)
| ApiRaise.
Arguments ApiOk {A}.
Arguments ApiRaise {A}.

(** One entry of [group['Metrics']]; [Amount] is the number [float(...)]
    reads from the provider's text. *)
Record CostMetric := mkCostMetric {
  Amount : float;
  Unit : string;
}.

Record CostGroup := mkCostGroup {
  Keys : list string;
  BlendedCost : CostMetric;
  UnblendedCost : CostMetric;
}.

Record ResultByTime := mkResultByTime {
  TimePeriod_Start : string;
  Groups : list CostGroup;
}.

Record Budget := mkBudget {
  BudgetName : string;
  BudgetLimit_Amount : float;
  BudgetType : option string;
}.

(** One entry of [BudgetPerformanceHistory]; [None] when the cost, or its
    [Amount], is absent. *)
Record Performance := mkPerformance {
  ActualCost_Amount : option float;
  ForecastedCost_Amount : option float;
}.

(** The provider's clients.  The time period of a query is a function of the
    clock and the look-back, which the oracle receives. *)
Record Cloud := mkCloud {
  get_cost_and_usage : datetime -> Z -> ApiResult (list ResultByTime);
  describe_budgets : string -> ApiResult (list Budget);
  describe_budget_performance_history :
    string -> string -> ApiResult (list Performance);
}.

Record AWSBillingCollector := mkCollector {
  region : string;
  account_id : string;
  cloud : Cloud;
}.

(** The body of the loop over [result['Groups']]. *)
Definition group_metrics (self : AWSBillingCollector) (date : string)
    (current_time : datetime) (group : CostGroup) : list BillingMetric :=
  let service := match Keys group with
                 | key :: _ => key
                 | [] => "Unknown"
                 end in
  let blended_cost := Amount (BlendedCost group) in
  let unblended_cost := Amount (UnblendedCost group) in
  (if (0 <? blended_cost)%float
   then [mkBillingMetric "aws_billing_blended_cost_usd" blended_cost
           [("service", service); ("account_id", account_id self);
            ("date", date); ("currency", Unit (BlendedCost group))]
           current_time "AWS blended cost by service in USD"]
   else [])
  ++
  (if (0 <? unblended_cost)%float
   then [mkBillingMetric "aws_billing_unblended_cost_usd" unblended_cost
           [("service", service); ("account_id", account_id self);
            ("date", date); ("currency", Unit (UnblendedCost group))]
           current_time "AWS unblended cost by service in USD"]
   else []).

Definition get_current_costs (self : AWSBillingCollector) (days_back : Z)
  : IO (list BillingMetric) :=
  today ← Sys.now;
  match get_cost_and_usage (cloud self) today days_back with
  | ApiRaise => mret []
  | ApiOk results =>
      current_time ← Sys.now;
      mret (flat_map
              (fun result =>
                 flat_map (group_metrics self (TimePeriod_Start result)
                                         current_time)
                          (Groups result))
              results)
  end.

(** [a / b] on floats: [None] is [ZeroDivisionError]. *)
Definition py_truediv (a b : float) : option float :=
  if (b =? 0)%float then None else Some (a / b)%float.

(** [(actual_spend / budget_limit * 100) if budget_limit > 0 else 0]; the
    literal [0] is read as the float it compares equal to. *)
Definition utilization (actual_spend budget_limit : float) : option float :=
  if (0 <? budget_limit)%float
  then quotient ← py_truediv actual_spend budget_limit;
       Some (quotient * 100)%float
  else Some 0%float.

Definition budget_labels (self : AWSBillingCollector) (budget : Budget)
  : list (string * string) :=
  [("budget_name", BudgetName budget); ("account_id", account_id self);
   ("budget_type", default "COST" (BudgetType budget))].

(** The loop over the budgets.  [metrics] is the list built so far; an
    exception leaves the loop and the handler returns what was built. *)
Fixpoint budgets_loop (self : AWSBillingCollector) (current_time : datetime)
    (budgets : list Budget) (metrics : list BillingMetric)
  : list BillingMetric :=
  match budgets with
  | [] => metrics
  | budget :: rest =>
      let budget_name := BudgetName budget in
      let budget_limit := BudgetLimit_Amount budget in
      match describe_budget_performance_history (cloud self)
              (account_id self) budget_name with
      | ApiRaise => metrics
      | ApiOk history =>
          match last history with
          | None => budgets_loop self current_time rest metrics
          | Some latest_performance =>
              let actual_spend :=
                default 0%float (ActualCost_Amount latest_performance) in
              let forecasted_spend :=
                default 0%float (ForecastedCost_Amount latest_performance) in
              let metrics :=
                metrics ++
                [mkBillingMetric "aws_budget_limit_usd" budget_limit
                   (budget_labels self budget) current_time
                   "AWS budget limit in USD";
                 mkBillingMetric "aws_budget_actual_spend_usd" actual_spend
                   (budget_labels self budget) current_time
                   "AWS budget actual spend in USD";
                 mkBillingMetric "aws_budget_forecasted_spend_usd"
                   forecasted_spend
                   (budget_labels self budget) current_time
                   "AWS budget forecasted spend in USD"] in
              match utilization actual_spend budget_limit with
              | None => metrics
              | Some percentage =>
                  budgets_loop self current_time rest
                    (metrics ++
                     [mkBillingMetric "aws_budget_utilization_percentage"
                        percentage
                        (budget_labels self budget) current_time
                        "AWS budget utilization as percentage"])
              end
          end
      end
  end.

Definition get_budget_metrics (self : AWSBillingCollector)
  : IO (list BillingMetric) :=
  match describe_budgets (cloud self) (account_id self) with
  | ApiRaise => mret []
  | ApiOk budgets =>
      current_time ← Sys.now;
      mret (budgets_loop self current_time budgets [])
  end.

(** [asdict(metric)] with the timestamp replaced by its ISO text. *)
Definition metric_dict (metric : BillingMetric) : MetricData float :=
  mkMetricData (bm_name metric) (bm_value metric) (Some (bm_labels metric))
               (isoformat (bm_timestamp metric)) (Some (bm_help_text metric)).

(** [os.makedirs] of an empty directory name raises; the handler logs and
    nothing is written. *)
Definition save_metrics_to_file `{JsonLib float} (self : AWSBillingCollector)
    (metrics : list BillingMetric) (filename : string) : IO unit :=
  if truthy (Sys.dirname filename)
  then Sys.write_file filename (json_dump (map metric_dict metrics))
  else mret tt.

End Collector.
Import Collector.

(** * Notions used by the statements *)

(** What escaping once means, character by character. *)
Definition escape_char (c : ascii) : string :=
  if Ascii.eqb c backslash then String backslash (String backslash EmptyString)
  else if Ascii.eqb c dquote then String backslash (String dquote EmptyString)
  else String c EmptyString.

Fixpoint escape_each (s : string) : string :=
  match s with
  | EmptyString => EmptyString
  | String c rest => escape_char c +:+ escape_each rest
  end.

(** The aggregator's reading of a quoted label value: a backslash makes the
    next character literal, [\n] being a line break. *)
Fixpoint unescape_label_value (s : string) : string :=
  match s with
  | EmptyString => EmptyString
  | String c rest =>
      if Ascii.eqb c backslash
      then match rest with
           | EmptyString => EmptyString
           | String c' rest' =>
               String (if Ascii.eqb c' "n" then newline else c')
                      (unescape_label_value rest')
           end
      else String c (unescape_label_value rest)
  end.

Definition help_line (name help_text : string) : string :=
  "# HELP " +:+ name +:+ " " +:+ help_text.

Definition type_line (name : string) : string :=
  "# TYPE " +:+ name +:+ " gauge".

(** [w'] is [w] after the exchanges [log]: the environment, the files, the
    gateway and the clock are the same. *)
Definition after_exchanges (w w' : World) (log : list (Request * Outcome))
  : Prop :=
  w_env w' = w_env w /\ w_files w' = w_files w
  /\ w_gateway w' = w_gateway w /\ w_now w' = w_now w
  /\ w_exchanges w' = w_exchanges w ++ log.

Definition succeeded (exchange : Request * Outcome) : bool :=
  is_status 200 (snd exchange).

Section Notions.
Context {V : Type} `{PyStr V} `{JsonLib V} `{PyLib}.

(** The instances of a name, in input order. *)
Definition instances (name : string) (metrics_data : list (MetricData V))
  : list (MetricData V) :=
  filter (fun m => md_name m = name) metrics_data.

(** [grouped.get(name, [])] *)
Fixpoint lookup_group (name : string)
    (grouped : list (string * list (MetricData V))) : list (MetricData V) :=
  match grouped with
  | [] => []
  | (metric_name, metrics_list) :: others =>
      if String.eqb metric_name name then metrics_list
      else lookup_group name others
  end.

(** The path from the loaded sequence to the end of [main]. *)
Definition deliver (pushgateway_url job_name instance_name : string)
    (metrics_data : list (MetricData V)) : IO bool :=
  let pusher := PrometheusPusher.init pushgateway_url job_name in
  _ ← health_check pusher;
  success ← push_metrics pusher metrics_data (Some instance_name);
  success ← (if (success : bool) then mret true
             else push_metrics_individually pusher metrics_data
                    (Some instance_name));
  if (success : bool) then
    timestamp ← Sys.now;
    _ ← Sys.write_file "data/push_summary.json"
          (json_dump_summary
             (mkSummary (isoformat timestamp) (length metrics_data)
                        pushgateway_url job_name instance_name "success"));
    mret true
  else mret false.

End Notions.

(** * A runtime and data for the examples

    A snapshot codec that satisfies [JsonRoundTrip]: it writes the binary
    digits of stdpp's countable encoding of the document.  It stands in for
    [json] wherever an example needs a concrete library; no theorem about
    the scripts depends on it. *)

Fixpoint bits_of_positive (p : positive) : string :=
  match p with
  | xH => EmptyString
  | xO q => String "0" (bits_of_positive q)
  | xI q => String "1" (bits_of_positive q)
  end.

Fixpoint positive_of_bits (s : string) : option positive :=
  match s with
  | EmptyString => Some xH
  | String c rest =>
      q ← positive_of_bits rest;
      if Ascii.eqb c "0" then Some (xO q)
      else if Ascii.eqb c "1" then Some (xI q)
      else None
  end.

Definition metric_fields {V : Type} (m : MetricData V)
  : string * V * option (list (string * string)) * string * option string :=
  (md_name m, md_value m, md_labels m, md_timestamp m, md_help_text m).

Definition metric_of_fields {V : Type}
    (t : string * V * option (list (string * string)) * string * option string)
  : MetricData V :=
  let '(name, value, labels, timestamp, help_text) := t in
  mkMetricData name value labels timestamp help_text.

#[export] Instance metric_data_eq_dec {V : Type} `{EqDecision V}
  : EqDecision (MetricData V).
Proof. solve_decision. Defined.

#[export] Instance metric_data_countable {V : Type} `{Countable V}
  : Countable (MetricData V).
Proof.
  apply (inj_countable' metric_fields metric_of_fields).
  now intros [].
Defined.

#[export] Instance float_eq_dec : EqDecision float.
Proof.
  intros x y. destruct (PrimFloat.Leibniz.eqb x y) eqn:Heqb.
  - left. now apply FloatAxioms.Leibniz.eqb_spec.
  - right. intros Heq. apply FloatAxioms.Leibniz.eqb_spec in Heq. congruence.
Defined.

#[export] Instance spec_float_eq_dec : EqDecision spec_float.
Proof. solve_decision. Defined.

Definition spec_float_fields (f : spec_float)
  : bool + bool + unit + bool * positive * Z :=
  match f with
  | S754_zero s => inl (inl (inl s))
  | S754_infinity s => inl (inl (inr s))
  | S754_nan => inl (inr tt)
  | S754_finite s m e => inr (s, m, e)
  end.

Definition spec_float_of_fields (t : bool + bool + unit + bool * positive * Z)
  : spec_float :=
  match t with
  | inl (inl (inl s)) => S754_zero s
  | inl (inl (inr s)) => S754_infinity s
  | inl (inr _) => S754_nan
  | inr (s, m, e) => S754_finite s m e
  end.

#[export] Instance spec_float_countable : Countable spec_float.
Proof.
  apply (inj_countable' spec_float_fields spec_float_of_fields).
  now intros [].
Defined.

#[export] Instance float_countable : Countable float.
Proof.
  apply (inj_countable' Prim2SF SF2Prim). exact SF2Prim_Prim2SF.
Defined.

#[export] Instance demo_json {V : Type} `{Countable V} : JsonLib V := {|
  json_dump data := bits_of_positive (encode data);
  json_load text := positive_of_bits text ≫= decode;
|}.

#[export] Instance demo_json_round_trip {V : Type} `{Countable V}
  : JsonRoundTrip V.
Proof.
  assert (Hbits : forall p, positive_of_bits (bits_of_positive p) = Some p)
    by (induction p as [q IH|q IH|]; cbn; [now rewrite IH..|reflexivity]).
  intros data. cbn. rewrite Hbits. cbn. apply decode_encode.
Qed.

(** [urljoin] on a base without a path appends the absolute path; the
    summary is written field by field. *)
#[export] Instance demo_lib : PyLib := {|
  urljoin base url := base +:+ url;
  json_dump_summary summary :=
    join ","
      [sm_timestamp summary; pretty (sm_total_metrics summary);
       sm_pushgateway_url summary; sm_job_name summary;
       sm_instance_name summary; sm_status summary];
|}.

Definition demo_time : datetime := mkDatetime 2024 3 9 7 5 0 1500.

Definition demo_budget : Budget := mkBudget "monthly" 200 None.

Definition unfunded_budget : Budget := mkBudget "unfunded" 0 None.

Definition demo_performance : Performance := mkPerformance (Some 50%float) None.

Definition demo_cost_group : CostGroup :=
  mkCostGroup ["Amazon S3"] (mkCostMetric 12.34 "USD") (mkCostMetric 0 "USD").

Definition free_cost_group : CostGroup :=
  mkCostGroup [] (mkCostMetric 0 "USD") (mkCostMetric 0.5 "USD").

Definition demo_cloud : Cloud :=
  mkCloud (fun _ _ =>
             ApiOk [mkResultByTime "2024-03-08"
                      [demo_cost_group; free_cost_group]])
          (fun _ => ApiOk [demo_budget])
          (fun _ _ => ApiOk [demo_performance]).

Definition demo_collector : AWSBillingCollector :=
  mkCollector "us-east-1" "123456789012" demo_cloud.

Definition demo_billing_metrics : list BillingMetric :=
  [mkBillingMetric "aws_billing_blended_cost_usd" 12.34
     [("service", "Amazon S3"); ("account_id", "123456789012");
      ("date", "2024-03-08"); ("currency", "USD")]
     demo_time "AWS blended cost by service in USD";
   mkBillingMetric "aws_budget_utilization_percentage" 25
     [("budget_name", "monthly")]
     (mkDatetime 2024 2 29 23 59 59 0) "AWS budget utilization as percentage"].

Definition cost_s3 : MetricData Z :=
  mkMetricData "cost" 12%Z (Some [("service", "s3")]) "2024-03-09T07:05:00"
               (Some "Cost by service").

Definition total_cost : MetricData Z :=
  mkMetricData "total" 40%Z None "2024-03-09T07:05:00" None.

Definition cost_ec2 : MetricData Z :=
  mkMetricData "cost" 28%Z (Some [("service", "ec2")]) "2024-03-09T07:05:00"
               (Some "").

Definition dotted_cost : MetricData Z :=
  mkMetricData "aws.cost" 5%Z None "2024-03-09T07:05:00" (Some "Cost in USD").

(** A gateway that is healthy, refuses the batch, and then accepts the first
    single push, times out on the second and refuses the rest. *)
Definition flaky_gateway (history : list (Request * Outcome)) (rq : Request)
  : Outcome :=
  match length history with
  | 0 => Response 200 "OK"
  | 1 => Response 500 "Internal Server Error"
  | 2 => Response 200 ""
  | 3 => RaisedTimeout
  | _ => Response 400 "Bad Request"
  end.

Definition demo_env : gmap string string :=
  {[ "PROMETHEUS_PUSHGATEWAY_URL" := "http://gateway:9091/" ]}.

Definition demo_world : World :=
  mkWorld demo_env
          {[ "data/billing_metrics.json"
             := json_dump [cost_s3; total_cost; cost_ec2] ]}
          flaky_gateway [] demo_time 0.

Definition world_without_snapshot : World :=
  mkWorld demo_env ∅ flaky_gateway [] demo_time 0.

Definition world_with_broken_snapshot : World :=
  mkWorld demo_env {[ "data/billing_metrics.json" := "{ not json" ]}
          flaky_gateway [] demo_time 0.

(** * The rest of the collector, and the gateway check of the setup script *)

(** ** [get_cloudwatch_billing_metrics] *)

Module CloudWatchMetrics.

Record Datapoint := mkDatapoint {
  Maximum : float;
}.

Record Dimension := mkDimension {
  dim_Name : string;
  dim_Value : string;
}.

(** One entry of [services_response['Metrics']]. *)
Record ListedMetric := mkListedMetric {
  Dimensions : list Dimension;
}.

(** [self.cloudwatch].  A statistics query is told apart by the clock (its
    time window) and its [Dimensions]; the other arguments are constants. *)
Record CloudWatchClient := mkCloudWatchClient {
  get_metric_statistics :
    datetime -> list Dimension -> ApiResult (list Datapoint);
  list_metrics : ApiResult (list ListedMetric);
}.

(** The order in which a [set] of strings is iterated, given the values
    added to it, in the order of the [add] calls.  Python leaves it
    unspecified. *)
Class PySet := set_iter : list string -> list string.

(** A set holds each added value once and nothing else. *)
Class PySetLaw `{PySet} : Prop := {
  set_iter_NoDup : forall added, NoDup (set_iter added);
  set_iter_elem : forall added x, x ∈ set_iter added <-> x ∈ added;
}.

(** The values the two nested loops add to [services]. *)
Definition service_names (listed : list ListedMetric) : list string :=
  flat_map
    (fun metric =>
       flat_map
         (fun dimension =>
            if String.eqb (dim_Name dimension) "ServiceName"
            then [dim_Value dimension] else [])
         (Dimensions metric))
    listed.

Definition total_charges_metric (self : AWSBillingCollector)
    (current_time : datetime) (datapoint : Datapoint) : BillingMetric :=
  mkBillingMetric "aws_billing_estimated_charges_total_usd"
    (Maximum datapoint)
    [("account_id", account_id self); ("currency", "USD")]
    current_time "AWS total estimated charges in USD".

Definition service_charges_metric (self : AWSBillingCollector)
    (service : string) (current_time : datetime) (datapoint : Datapoint)
  : BillingMetric :=
  mkBillingMetric "aws_billing_estimated_charges_by_service_usd"
    (Maximum datapoint)
    [("service", service); ("account_id", account_id self);
     ("currency", "USD")]
    current_time "AWS estimated charges by service in USD".

(** The loop over [services]: a query that raises is logged and skipped. *)
Fixpoint services_loop (self : AWSBillingCollector)
    (cloudwatch : CloudWatchClient) (query_time current_time : datetime)
    (services : list string) (metrics : list BillingMetric)
  : list BillingMetric :=
  match services with
  | [] => metrics
  | service :: rest =>
      match get_metric_statistics cloudwatch query_time
              [mkDimension "Currency" "USD";
               mkDimension "ServiceName" service] with
      | ApiRaise =>
          services_loop self cloudwatch query_time current_time rest metrics
      | ApiOk datapoints =>
          services_loop self cloudwatch query_time current_time rest
            (metrics
             ++ map (service_charges_metric self service current_time)
                    datapoints)
      end
  end.

Definition get_cloudwatch_billing_metrics `{PySet}
    (self : AWSBillingCollector) (cloudwatch : CloudWatchClient)
  : IO (list BillingMetric) :=
  query_time ← Sys.now;
  match get_metric_statistics cloudwatch query_time
          [mkDimension "Currency" "USD"] with
  | ApiRaise => mret []
  | ApiOk datapoints =>
      current_time ← Sys.now;
      let metrics := map (total_charges_metric self current_time) datapoints in
      match list_metrics cloudwatch with
      | ApiRaise => mret metrics
      | ApiOk listed =>
          query_time ← Sys.now;
          mret (services_loop self cloudwatch query_time current_time
                  (set_iter (service_names listed)) metrics)
      end
  end.

End CloudWatchMetrics.
Import CloudWatchMetrics.

(** ** The collector's [__init__] and [main] *)

(** [boto3.client] for the region: the clients, or the exception
    ([NoCredentialsError] or another) that [__init__] re-raises. *)
Class Boto3 := boto3_clients : string -> ApiResult (Cloud * CloudWatchClient).

Module CollectBillingData.

Section Main.
Context `{Boto3} `{PySet} `{JsonLib float}.

(** [AWSBillingCollector()] *)
Definition init : IO (ApiResult (AWSBillingCollector * CloudWatchClient)) :=
  region ← Sys.getenv_default "AWS_REGION" "us-east-1";
  account_id ← Sys.getenv_default "AWS_ACCOUNT_ID" "";
  match boto3_clients region with
  | ApiRaise => mret ApiRaise
  | ApiOk (cloud, cloudwatch) =>
      mret (ApiOk (mkCollector region account_id cloud, cloudwatch))
  end.

(** [main]; [None] is the exception it logs and raises again. *)
Definition main : IO (option unit) :=
  created ← init;
  match created with
  | ApiRaise => mret None
  | ApiOk (collector, cloudwatch) =>
      cost_metrics ← get_current_costs collector 2;
      cw_metrics ← get_cloudwatch_billing_metrics collector cloudwatch;
      budget_metrics ← (if truthy (account_id collector)
                        then get_budget_metrics collector
                        else mret []);
      let all_metrics := cost_metrics ++ cw_metrics ++ budget_metrics in
      _ ← save_metrics_to_file collector all_metrics
            "data/billing_metrics.json";
      mret (Some tt)
  end.

End Main.

End CollectBillingData.

(** ** [test_prometheus_pushgateway] of the setup script

    The [print] calls are left out like the [logger] calls. *)

Module TestSetup.

Definition test_metric : string :=
  "# HELP test_metric A test metric" +:+ String newline
    ("# TYPE test_metric gauge" +:+ String newline
       ("test_metric{job=" +:+ String dquote ("test" +:+ String dquote
          ("} 1.0" +:+ String newline EmptyString)))).

Definition test_prometheus_pushgateway : IO bool :=
  pushgateway_url ← Sys.getenv "PROMETHEUS_PUSHGATEWAY_URL";
  if negb (truthy (default "" pushgateway_url)) then mret false
  else
    let pushgateway_url := default "" pushgateway_url in
    response ← Sys.http_send
                 (mkRequest GET (rstrip slash pushgateway_url +:+ "/-/healthy")
                            [] "");
    match response with
    | Response status_code _ =>
        if (status_code =? 200)%Z then
          let push_url :=
            rstrip slash pushgateway_url +:+ "/metrics/job/test" in
          push_response ← Sys.http_send
                            (mkRequest POST push_url
                               [("Content-Type", "text/plain; version=0.0.4")]
                               test_metric);
          match push_response with
          | Response status_code _ =>
              if (status_code =? 200)%Z then
                cleanup ← Sys.http_send (mkRequest DELETE push_url [] "");
                match cleanup with
                | Response _ _ => mret true
                | _ => mret false
                end
              else mret false
          | _ => mret false
          end
        else mret false
    | _ => mret false
    end.

End TestSetup.

(** ** Notions used by the further statements *)

(** [s.endswith(c)] for a single character. *)
Fixpoint endswith (c : ascii) (s : string) : bool :=
  match s with
  | EmptyString => false
  | String c' EmptyString => Ascii.eqb c' c
  | String _ rest => endswith c rest
  end.

(** [c * k] *)
Fixpoint repeat_char (c : ascii) (k : nat) : string :=
  match k with
  | O => EmptyString
  | S k' => String c (repeat_char c k')
  end.

(** The distinct values of a list, each at its first occurrence. *)
Fixpoint first_occurrences (names : list string) : list string :=
  match names with
  | [] => []
  | name :: rest => name :: filter (fun other => other <> name)
                                   (first_occurrences rest)
  end.

Definition budget_metric_names : list string :=
  ["aws_budget_limit_usd"; "aws_budget_actual_spend_usd";
   "aws_budget_forecasted_spend_usd"; "aws_budget_utilization_percentage"].

(** What one service adds to the CloudWatch metrics: a metric for each
    datapoint of its query, nothing when the query raises. *)
Definition service_metrics (self : AWSBillingCollector)
    (cloudwatch : CloudWatchClient) (query_time current_time : datetime)
    (service : string) : list BillingMetric :=
  match get_metric_statistics cloudwatch query_time
          [mkDimension "Currency" "USD"; mkDimension "ServiceName" service] with
  | ApiRaise => []
  | ApiOk datapoints =>
      map (service_charges_metric self service current_time) datapoints
  end.

(** The metrics one run of the collector gathers, in the order [main] puts
    them into [all_metrics]. *)
Definition collected `{PySet} (collector : AWSBillingCollector)
    (cloudwatch : CloudWatchClient) (w : World) : list BillingMetric :=
  fst (get_current_costs collector 2 w)
  ++ fst (get_cloudwatch_billing_metrics collector cloudwatch w)
  ++ (if truthy (account_id collector)
      then fst (get_budget_metrics collector w)
      else []).

(** The metric names the collector uses. *)
Definition collector_metric_names : list string :=
  ["aws_billing_blended_cost_usd"; "aws_billing_unblended_cost_usd";
   "aws_billing_estimated_charges_total_usd";
   "aws_billing_estimated_charges_by_service_usd"]
  ++ budget_metric_names.

(** A metric as the collector builds them at time [t]. *)
Definition built_at (t : datetime) (metric : BillingMetric) : Prop :=
  bm_timestamp metric = t
  /\ In (bm_name metric) collector_metric_names
  /\ truthy (bm_help_text metric) = true
  /\ contains newline (bm_help_text metric) = false.

(** ** Data for the further examples *)

Definition first_seen_order : PySet := fun added => remove_dups added.

Definition two_line_help : MetricData Z :=
  mkMetricData "cost" 7%Z None "2024-03-09T07:05:00"
    (Some ("Cost" +:+ String newline "per day")).

Definition steady_gateway (history : list (Request * Outcome)) (rq : Request)
  : Outcome :=
  Response 200 "OK".

Definition steady_world : World :=
  mkWorld demo_env
          {[ "data/billing_metrics.json"
             := json_dump [cost_s3; total_cost; cost_ec2] ]}
          steady_gateway [] demo_time 0.

Definition unconfigured_world : World :=
  mkWorld ∅
          {[ "data/billing_metrics.json"
             := json_dump [cost_s3; total_cost; cost_ec2] ]}
          steady_gateway [] demo_time 0.

Definition broken_budget : Budget := mkBudget "broken" 100 None.

(** A provider whose performance query fails for the budget [broken]. *)
Definition partial_cloud : Cloud :=
  mkCloud (get_cost_and_usage demo_cloud)
          (fun _ => ApiOk [demo_budget; broken_budget; unfunded_budget])
          (fun _ budget_name =>
             if String.eqb budget_name "broken" then ApiRaise
             else ApiOk [demo_performance]).

Definition partial_collector : AWSBillingCollector :=
  mkCollector "us-east-1" "123456789012" partial_cloud.

(** A CloudWatch that lists S3 twice and EC2 once, answers the total and the
    S3 query, and fails the EC2 query. *)
Definition demo_cloudwatch : CloudWatchClient :=
  mkCloudWatchClient
    (fun _ dimensions =>
       match dimensions with
       | [_] => ApiOk [mkDatapoint 42.5]
       | [_; service] =>
           if String.eqb (dim_Value service) "AmazonEC2" then ApiRaise
           else ApiOk [mkDatapoint 0]
       | _ => ApiRaise
       end)
    (ApiOk [mkListedMetric [mkDimension "ServiceName" "AmazonS3";
                            mkDimension "Currency" "USD"];
            mkListedMetric [mkDimension "ServiceName" "AmazonEC2";
                            mkDimension "Currency" "USD"];
            mkListedMetric [mkDimension "Currency" "USD"];
            mkListedMetric [mkDimension "ServiceName" "AmazonS3";
                            mkDimension "LinkedAccount" "123456789012"]]).

Definition demo_boto3 : Boto3 := fun _ => ApiOk (demo_cloud, demo_cloudwatch).

Definition collector_world : World :=
  mkWorld {[ "AWS_ACCOUNT_ID" := "123456789012" ]} ∅ steady_gateway []
          demo_time 0.

(** * Properties *)

(** ** Library primitives on examples *)

Example dirname_default : Sys.dirname "data/billing_metrics.json" = "data".
Proof. reflexivity. Qed.

Example dirname_bare : Sys.dirname "metrics.json" = "".
Proof. reflexivity. Qed.

Example isoformat_ex :
  isoformat (mkDatetime 2024 3 9 7 5 0 1500) = "2024-03-09T07:05:00.001500".
Proof. reflexivity. Qed.

Example fromisoformat_ex :
  fromisoformat "2024-03-09T07:05:00" = Some (mkDatetime 2024 3 9 7 5 0 0).
Proof. reflexivity. Qed.

(** ** Label-value escaping *)

Lemma sanitize_label_value_escape_each (value : string) :
  sanitize_label_value value = escape_each value.
Proof.
  unfold sanitize_label_value.
  induction value as [|c rest IH]; [reflexivity|].
  cbn [replace_char escape_each]. unfold escape_char.
  destruct (Ascii.eqb c backslash) eqn:Hb.
  - cbn. now rewrite IH.
  - cbn [replace_char]. destruct (Ascii.eqb c dquote); cbn; now rewrite IH.
Qed.

Lemma unescape_escape_each (value : string) :
  unescape_label_value (escape_each value) = value.
Proof.
  induction value as [|c rest IH]; [reflexivity|].
  cbn [escape_each]. unfold escape_char.
  destruct (Ascii.eqb c backslash) eqn:Hb.
  - apply Ascii.eqb_eq in Hb. subst c. cbn. now rewrite IH.
  - destruct (Ascii.eqb c dquote) eqn:Hq.
    + apply Ascii.eqb_eq in Hq. subst c. cbn. now rewrite IH.
    + cbn. rewrite Hb. now rewrite IH.
Qed.

(** C8. [sanitize_label_value] replaces the backslashes first and the double
    quotes second; the result escapes every backslash and every double quote
    exactly once and leaves the other characters alone; and un-escaping the
    result gives the value back. *)
Theorem sanitize_label_value_round_trip (value : string) :
  sanitize_label_value value
  = replace_char dquote (String backslash (String dquote EmptyString))
      (replace_char backslash
         (String backslash (String backslash EmptyString)) value)
  /\ sanitize_label_value value = escape_each value
  /\ unescape_label_value (sanitize_label_value value) = value.
Proof.
  split; [reflexivity|]. split.
  - apply sanitize_label_value_escape_each.
  - rewrite sanitize_label_value_escape_each. apply unescape_escape_each.
Qed.

(** ** Pushing nothing *)

(** C9. Pushing the empty sequence returns [True] and leaves the world as it
    was: no exchange with the gateway is added. *)
Theorem push_metrics_empty {V : Type} `{PyStr V} (self : Pusher)
    (instance : option string) (w : World) :
  push_metrics self ([] : list (MetricData V)) instance w = (true, w).
Proof. reflexivity. Qed.

(** C10. On the empty sequence the individual fallback returns [False] (its
    count of successes is 0), where the batch push returns [True]; neither
    touches the gateway. *)
Theorem push_metrics_individually_empty {V : Type} `{PyStr V} (self : Pusher)
    (instance : option string) (w : World) :
  push_each self instance 0 ([] : list (MetricData V)) 0 w = (0, w)
  /\ push_metrics_individually self ([] : list (MetricData V)) instance w
     = (false, w)
  /\ push_metrics self ([] : list (MetricData V)) instance w = (true, w).
Proof. repeat split. Qed.

(** ** Float comparisons against zero *)

Lemma float_pos_not_zero (x : float) :
  (0 <? x)%float = true -> (x =? 0)%float = false.
Proof.
  rewrite FloatAxioms.ltb_spec, FloatAxioms.eqb_spec.
  change (Prim2SF 0) with (S754_zero false).
  destruct (Prim2SF x) as [s|s| |s m e]; try destruct s; cbn; congruence.
Qed.

Lemma float_nonpos_not_pos (x : float) :
  (x <=? 0)%float = true -> (0 <? x)%float = false.
Proof.
  rewrite FloatAxioms.leb_spec, FloatAxioms.ltb_spec.
  change (Prim2SF 0) with (S754_zero false).
  destruct (Prim2SF x) as [s|s| |s m e]; try destruct s; cbn; congruence.
Qed.

(** ** Budget utilization *)

Lemma utilization_value (actual_spend budget_limit : float) :
  utilization actual_spend budget_limit
  = Some (if (0 <? budget_limit)%float
          then (actual_spend / budget_limit * 100)%float
          else 0%float).
Proof.
  unfold utilization, py_truediv.
  destruct (0 <? budget_limit)%float eqn:Hpos; [|reflexivity].
  now rewrite (float_pos_not_zero _ Hpos).
Qed.

(** C6. For a budget whose performance history is not empty, the loop
    computes the utilization without a division fault, appends the four
    metrics of the budget and goes on; the utilization metric carries
    [actual / limit * 100] when the limit is positive and [0] when the limit
    is zero or negative. *)
Theorem budget_utilization_guarded (self : AWSBillingCollector)
    (current_time : datetime) (budget : Budget) (rest : list Budget)
    (metrics : list BillingMetric) (history : list Performance)
    (latest_performance : Performance) :
  describe_budget_performance_history (cloud self) (account_id self)
    (BudgetName budget) = ApiOk history ->
  last history = Some latest_performance ->
  let budget_limit := BudgetLimit_Amount budget in
  let actual_spend := default 0%float (ActualCost_Amount latest_performance) in
  let forecasted_spend :=
    default 0%float (ForecastedCost_Amount latest_performance) in
  exists percentage : float,
    utilization actual_spend budget_limit = Some percentage
    /\ ((0 <? budget_limit)%float = true ->
        percentage = (actual_spend / budget_limit * 100)%float)
    /\ ((budget_limit <=? 0)%float = true -> percentage = 0%float)
    /\ budgets_loop self current_time (budget :: rest) metrics
       = budgets_loop self current_time rest
           ((metrics ++
             [mkBillingMetric "aws_budget_limit_usd" budget_limit
                (budget_labels self budget) current_time
                "AWS budget limit in USD";
              mkBillingMetric "aws_budget_actual_spend_usd" actual_spend
                (budget_labels self budget) current_time
                "AWS budget actual spend in USD";
              mkBillingMetric "aws_budget_forecasted_spend_usd"
                forecasted_spend
                (budget_labels self budget) current_time
                "AWS budget forecasted spend in USD"]) ++
            [mkBillingMetric "aws_budget_utilization_percentage" percentage
               (budget_labels self budget) current_time
               "AWS budget utilization as percentage"]).
Proof.
  intros Hhist Hlast budget_limit actual_spend forecasted_spend.
  exists (if (0 <? budget_limit)%float
          then (actual_spend / budget_limit * 100)%float else 0%float).
  repeat split.
  - apply utilization_value.
  - intros ->. reflexivity.
  - intros Hle. now rewrite (float_nonpos_not_pos _ Hle).
  - cbn [budgets_loop]. rewrite Hhist, Hlast.
    fold budget_limit actual_spend forecasted_spend.
    now rewrite utilization_value.
Qed.

Lemma budget_utilization_guarded_witness :
  describe_budget_performance_history (cloud demo_collector)
    (account_id demo_collector) (BudgetName demo_budget)
  = ApiOk [demo_performance]
  /\ last [demo_performance] = Some demo_performance
  /\ (exists percentage : float,
        utilization 50 200 = Some percentage /\ percentage = 25%float)
  /\ (exists percentage : float,
        utilization 50 0 = Some percentage /\ percentage = 0%float).
Proof.
  split; [reflexivity|]. split; [reflexivity|]. split.
  - destruct (budget_utilization_guarded demo_collector demo_time demo_budget
                [] [] [demo_performance] demo_performance eq_refl eq_refl)
      as (percentage & Hvalue & Hpos & _).
    exists percentage. split; [exact Hvalue|].
    rewrite Hpos by reflexivity. reflexivity.
  - destruct (budget_utilization_guarded demo_collector demo_time
                unfunded_budget [] [] [demo_performance] demo_performance
                eq_refl eq_refl)
      as (percentage & Hvalue & _ & Hzero & _).
    exists percentage. split; [exact Hvalue|]. now apply Hzero.
Defined.

(** ** Cost by service *)

Lemma get_current_costs_ok (self : AWSBillingCollector) (days_back : Z)
    (results : list ResultByTime) (w : World) :
  get_cost_and_usage (cloud self) (w_now w) days_back = ApiOk results ->
  get_current_costs self days_back w
  = (flat_map
       (fun result =>
          flat_map (group_metrics self (TimePeriod_Start result) (w_now w))
                   (Groups result))
       results, w).
Proof.
  intros Hresp. unfold get_current_costs, mbind, IO_bind, Sys.now.
  now rewrite Hresp.
Qed.

(** C5. When the provider answers, the collector's cost metrics are the
    contributions of the records, one after the other; a record whose blended
    cost is zero or negative contributes no blended-cost metric, and a record
    whose blended cost is positive contributes exactly one, carrying that
    value and the labels [service], [account_id], [date] and [currency]. *)
Theorem blended_cost_metric (self : AWSBillingCollector) (days_back : Z)
    (results : list ResultByTime) (w : World) :
  get_cost_and_usage (cloud self) (w_now w) days_back = ApiOk results ->
  fst (get_current_costs self days_back w)
  = flat_map
      (fun result =>
         flat_map (group_metrics self (TimePeriod_Start result) (w_now w))
                  (Groups result))
      results
  /\ forall (date : string) (group : CostGroup),
       let blended_cost := Amount (BlendedCost group) in
       let service := match Keys group with
                      | key :: _ => key
                      | [] => "Unknown"
                      end in
       let produced :=
         filter (fun m => bm_name m = "aws_billing_blended_cost_usd")
                (group_metrics self date (w_now w) group) in
       ((blended_cost <=? 0)%float = true -> produced = [])
       /\ ((0 <? blended_cost)%float = true ->
           produced
           = [mkBillingMetric "aws_billing_blended_cost_usd" blended_cost
                [("service", service); ("account_id", account_id self);
                 ("date", date); ("currency", Unit (BlendedCost group))]
                (w_now w) "AWS blended cost by service in USD"]).
Proof.
  intros Hresp. split.
  - now rewrite (get_current_costs_ok _ _ _ _ Hresp).
  - intros date group blended_cost service produced.
    subst produced. unfold group_metrics. fold blended_cost service.
    split.
    + intros Hle. rewrite (float_nonpos_not_pos _ Hle).
      destruct (0 <? Amount (UnblendedCost group))%float; reflexivity.
    + intros ->.
      destruct (0 <? Amount (UnblendedCost group))%float; reflexivity.
Qed.

Lemma blended_cost_metric_witness :
  get_cost_and_usage (cloud demo_collector) demo_time 1
  = ApiOk [mkResultByTime "2024-03-08" [demo_cost_group; free_cost_group]]
  /\ (0 <? Amount (BlendedCost demo_cost_group))%float = true
  /\ (Amount (BlendedCost free_cost_group) <=? 0)%float = true
  /\ filter (fun m => bm_name m = "aws_billing_blended_cost_usd")
       (group_metrics demo_collector "2024-03-08" demo_time demo_cost_group)
     = [mkBillingMetric "aws_billing_blended_cost_usd" 12.34
          [("service", "Amazon S3"); ("account_id", "123456789012");
           ("date", "2024-03-08"); ("currency", "USD")]
          demo_time "AWS blended cost by service in USD"]
  /\ filter (fun m => bm_name m = "aws_billing_blended_cost_usd")
       (group_metrics demo_collector "2024-03-08" demo_time free_cost_group)
     = [].
Proof.
  split; [reflexivity|]. split; [reflexivity|]. split; [reflexivity|].
  pose proof (blended_cost_metric demo_collector 1
                [mkResultByTime "2024-03-08" [demo_cost_group; free_cost_group]]
                (mkWorld ∅ ∅ (fun _ _ => RaisedOther) [] demo_time 0)
                eq_refl) as [_ Hrecord].
  split.
  - destruct (Hrecord "2024-03-08" demo_cost_group) as [_ Hpos].
    exact (Hpos eq_refl).
  - destruct (Hrecord "2024-03-08" free_cost_group) as [Hzero _].
    exact (Hzero eq_refl).
Defined.

Example get_current_costs_ex :
  map (fun m => (bm_name m, bm_value m, map snd (bm_labels m)))
      (fst (get_current_costs demo_collector 1 world_without_snapshot))
  = [("aws_billing_blended_cost_usd", 12.34%float,
      ["Amazon S3"; "123456789012"; "2024-03-08"; "USD"]);
     ("aws_billing_unblended_cost_usd", 0.5%float,
      ["Unknown"; "123456789012"; "2024-03-08"; "USD"])].
Proof. reflexivity. Qed.

Example get_budget_metrics_ex :
  map (fun m => (bm_name m, bm_value m))
      (fst (get_budget_metrics demo_collector world_without_snapshot))
  = [("aws_budget_limit_usd", 200%float);
     ("aws_budget_actual_spend_usd", 50%float);
     ("aws_budget_forecasted_spend_usd", 0%float);
     ("aws_budget_utilization_percentage", 25%float)].
Proof. reflexivity. Qed.

(** ** The grouping table of [push_metrics] *)

Section Grouping.
Context {V : Type} `{PyStr V}.

Lemma instances_one (name : string) (metric : MetricData V) :
  instances name [metric]
  = if String.eqb (md_name metric) name then [metric] else [].
Proof.
  unfold instances. rewrite filter_cons, filter_nil.
  destruct (String.eqb_spec (md_name metric) name).
  - now rewrite decide_True.
  - now rewrite decide_False.
Qed.

Lemma lookup_group_add (name : string) (metric : MetricData V)
    (grouped : list (string * list (MetricData V))) :
  lookup_group name (group_add metric grouped)
  = lookup_group name grouped ++ instances name [metric].
Proof.
  rewrite instances_one.
  induction grouped as [|[k l] others IH]; cbn [group_add lookup_group].
  - reflexivity.
  - destruct (String.eqb_spec k (md_name metric)) as [-> | Hk];
      cbn [lookup_group].
    + destruct (String.eqb (md_name metric) name); [reflexivity|].
      now rewrite app_nil_r.
    + destruct (String.eqb_spec k name) as [-> | Hn]; [|exact IH].
      destruct (String.eqb_spec (md_name metric) name); [congruence|].
      now rewrite app_nil_r.
Qed.

Lemma keys_group_add (key : string) (metric : MetricData V)
    (grouped : list (string * list (MetricData V))) :
  key ∈ map fst (group_add metric grouped)
  <-> key ∈ map fst grouped \/ key = md_name metric.
Proof.
  induction grouped as [|[k l] others IH]; cbn [group_add map fst].
  - rewrite elem_of_cons, elem_of_nil. tauto.
  - destruct (String.eqb_spec k (md_name metric)) as [-> | Hk];
      cbn [map fst]; rewrite !elem_of_cons.
    + tauto.
    + rewrite IH. tauto.
Qed.

Lemma NoDup_group_add (metric : MetricData V)
    (grouped : list (string * list (MetricData V))) :
  NoDup (map fst grouped) -> NoDup (map fst (group_add metric grouped)).
Proof.
  induction grouped as [|[k l] others IH]; cbn [group_add map fst]; intros Hnd.
  - apply NoDup_singleton.
  - apply NoDup_cons in Hnd as [Hk Hnd].
    destruct (String.eqb_spec k (md_name metric)) as [-> | Hne];
      cbn [map fst]; apply NoDup_cons.
    + split; assumption.
    + split; [|auto]. rewrite keys_group_add. intros [?|?]; congruence.
Qed.

Lemma lookup_grouped_from (name : string) (metrics_data : list (MetricData V))
    (grouped : list (string * list (MetricData V))) :
  lookup_group name
    (fold_left (fun grouped metric => group_add metric grouped)
               metrics_data grouped)
  = lookup_group name grouped ++ instances name metrics_data.
Proof.
  revert grouped.
  induction metrics_data as [|metric rest IH]; intros grouped; cbn [fold_left].
  - unfold instances. now rewrite filter_nil, app_nil_r.
  - rewrite IH, lookup_group_add, <- app_assoc. f_equal.
    unfold instances. now rewrite <- filter_app.
Qed.

Lemma keys_grouped_from (key : string) (metrics_data : list (MetricData V))
    (grouped : list (string * list (MetricData V))) :
  key ∈ map fst
        (fold_left (fun grouped metric => group_add metric grouped)
                   metrics_data grouped) ->
  key ∈ map fst grouped \/ key ∈ map md_name metrics_data.
Proof.
  revert grouped.
  induction metrics_data as [|metric rest IH]; intros grouped; cbn [fold_left].
  - auto.
  - intros Hin. apply IH in Hin as [Hin|Hin].
    + apply keys_group_add in Hin as [? | ->]; [auto|].
      right. cbn. apply elem_of_cons. auto.
    + right. cbn. apply elem_of_cons. auto.
Qed.

Lemma NoDup_grouped_from (metrics_data : list (MetricData V))
    (grouped : list (string * list (MetricData V))) :
  NoDup (map fst grouped) ->
  NoDup (map fst
           (fold_left (fun grouped metric => group_add metric grouped)
                      metrics_data grouped)).
Proof.
  revert grouped.
  induction metrics_data as [|metric rest IH]; intros grouped Hnd;
    cbn [fold_left]; auto using NoDup_group_add.
Qed.

Lemma lookup_grouped_metrics (name : string)
    (metrics_data : list (MetricData V)) :
  lookup_group name (grouped_metrics metrics_data)
  = instances name metrics_data.
Proof. unfold grouped_metrics. now rewrite lookup_grouped_from. Qed.

(** A name with a non-empty entry splits the table around that entry. *)
Lemma lookup_group_split (name : string)
    (grouped : list (string * list (MetricData V))) :
  lookup_group name grouped <> [] ->
  exists before after,
    grouped = before ++ (name, lookup_group name grouped) :: after
    /\ name ∉ map fst before.
Proof.
  induction grouped as [|[k l] others IH]; cbn [lookup_group]; [done|].
  destruct (String.eqb_spec k name) as [-> | Hne]; intros Hl.
  - exists [], others. split; [reflexivity|]. cbn. apply not_elem_of_nil.
  - destruct (IH Hl) as (before & after & Heq & Hnot).
    exists ((k, l) :: before), after. split.
    + cbn. now rewrite <- Heq.
    + cbn. rewrite not_elem_of_cons. split; [congruence|assumption].
Qed.

(** The table of a sequence, cut at the group of one of its names. *)
Lemma grouped_metrics_split (name : string)
    (metrics_data : list (MetricData V)) :
  instances name metrics_data <> [] ->
  exists before after,
    grouped_metrics metrics_data
    = before ++ (name, instances name metrics_data) :: after
    /\ Forall (fun group => fst group <> name
                            /\ fst group ∈ map md_name metrics_data)
              (before ++ after).
Proof.
  intros Hne. rewrite <- lookup_grouped_metrics in Hne.
  destruct (lookup_group_split _ _ Hne) as (before & after & Heq & Hnot).
  rewrite lookup_grouped_metrics in Heq.
  exists before, after. split; [exact Heq|].
  assert (Hnd : NoDup (map fst (grouped_metrics metrics_data)))
    by (apply NoDup_grouped_from; constructor).
  assert (Hkeys : forall key, key ∈ map fst (grouped_metrics metrics_data) ->
                              key ∈ map md_name metrics_data).
  { intros key Hin. apply keys_grouped_from in Hin as [Hin|Hin]; [|done].
    cbn in Hin. now apply elem_of_nil in Hin. }
  rewrite Heq in Hnd, Hkeys.
  rewrite map_app in Hnd. cbn [map fst] in Hnd.
  apply NoDup_app in Hnd as (_ & Hdisj & Hafter).
  apply NoDup_cons in Hafter as [Hafter _].
  apply Forall_forall. intros [k l] Hin. cbn [fst]. split.
  - intros ->. apply elem_of_app in Hin as [Hin|Hin].
    + apply Hnot. apply list_elem_of_fmap. now exists (name, l).
    + apply Hafter. apply list_elem_of_fmap. now exists (name, l).
  - apply Hkeys. rewrite map_app. cbn [map fst].
    apply elem_of_app in Hin as [Hin|Hin].
    + apply elem_of_app. left. apply list_elem_of_fmap. now exists (k, l).
    + apply elem_of_app. right. apply elem_of_cons. right.
      apply list_elem_of_fmap. now exists (k, l).
Qed.

End Grouping.

(** ** Facts about strings *)

Lemma append_assoc (s t u : string) : (s +:+ t) +:+ u = s +:+ (t +:+ u).
Proof. induction s as [|c s IH]; cbn; [reflexivity|]. now rewrite IH. Qed.

Lemma append_empty_r (s : string) : s +:+ "" = s.
Proof. induction s as [|c s IH]; cbn; [reflexivity|]. now rewrite IH. Qed.

Lemma length_append (s t : string) :
  String.length (s +:+ t) = String.length s + String.length t.
Proof. induction s as [|c s IH]; cbn; [reflexivity|]. now rewrite IH. Qed.

Lemma append_inv_tail (s1 s2 t : string) : s1 +:+ t = s2 +:+ t -> s1 = s2.
Proof.
  revert s2. induction s1 as [|c s1 IH]; intros [|c' s2] Heq; cbn in Heq.
  - reflexivity.
  - apply (f_equal String.length) in Heq. cbn in Heq.
    rewrite length_append in Heq. lia.
  - apply (f_equal String.length) in Heq. cbn in Heq.
    rewrite length_append in Heq. lia.
  - injection Heq as -> Heq. f_equal. now apply IH.
Qed.

(** Two names without a space that are followed by a space are equal as
    soon as the texts are. *)
Lemma name_before_space (n1 n2 h1 h2 : string) :
  contains " " n1 = false -> contains " " n2 = false ->
  n1 +:+ String " " h1 = n2 +:+ String " " h2 -> n1 = n2.
Proof.
  unfold contains. revert n2.
  induction n1 as [|c n1 IH]; intros [|c' n2] H1 H2 Heq; cbn in *.
  - reflexivity.
  - injection Heq as <- _. cbn in H2. discriminate.
  - injection Heq as -> _. cbn in H1. discriminate.
  - injection Heq as -> Heq. f_equal.
    apply orb_false_elim in H1 as [_ H1], H2 as [_ H2]. now apply IH.
Qed.

Lemma filter_eq_absent {A : Type} `{EqDecision A} (x : A) (l : list A) :
  x ∉ l -> filter (fun y => y = x) l = [].
Proof.
  induction l as [|y l IH]; [reflexivity|].
  rewrite not_elem_of_cons. intros [Hne Hnot].
  rewrite filter_cons, decide_False by congruence. auto.
Qed.

(** ** HELP and TYPE lines of the batch body *)

Section Lines.
Context {V : Type} `{PyStr V}.

Lemma instance_lines_no_hash (metric : MetricData V) (line : string) :
  line ∈ instance_lines metric -> startswith hash line = false.
Proof.
  unfold instance_lines. rewrite list_elem_of_filter. intros [Hline _].
  now destruct (startswith hash line).
Qed.

Lemma data_lines_no_hash (metrics_list : list (MetricData V)) (line : string) :
  line ∈ flat_map instance_lines metrics_list -> startswith hash line = false.
Proof.
  rewrite list_elem_of_In, in_flat_map. intros (metric & _ & Hin).
  apply (instance_lines_no_hash metric). now apply list_elem_of_In.
Qed.

(** The lines of a group are its header, if any, and lines without [#]. *)
Lemma group_lines_elem (group : string * list (MetricData V)) (line : string) :
  line ∈ group_lines group ->
  (exists help_text, line = help_line (fst group) help_text)
  \/ line = type_line (fst group)
  \/ startswith hash line = false.
Proof.
  destruct group as [name [|first others]]; cbn [group_lines fst].
  - intros Hin. now apply elem_of_nil in Hin.
  - rewrite elem_of_app. intros [Hin|Hin].
    + destruct (truthy _).
      * apply elem_of_cons in Hin as [-> | Hin]; [left; eauto|].
        apply elem_of_cons in Hin as [-> | Hin]; [right; left; reflexivity|].
        now apply elem_of_nil in Hin.
      * now apply elem_of_nil in Hin.
    + right; right. now apply (data_lines_no_hash (first :: others)).
Qed.

Lemma other_groups_no_type (name : string)
    (groups : list (string * list (MetricData V))) :
  Forall (fun group => fst group <> name) groups ->
  type_line name ∉ flat_map group_lines groups.
Proof.
  intros Hall Hin. apply list_elem_of_In, in_flat_map in Hin
    as (group & Hgroup & Hin).
  apply list_elem_of_In in Hgroup, Hin.
  rewrite Forall_forall in Hall. specialize (Hall _ Hgroup).
  apply group_lines_elem in Hin as [[help_text Heq]|[Heq|Heq]].
  - discriminate Heq.
  - apply Hall. symmetry. unfold type_line in Heq.
    apply String.app_inj in Heq. now apply append_inv_tail in Heq.
  - discriminate Heq.
Qed.

Lemma other_groups_no_help (name help_text : string)
    (groups : list (string * list (MetricData V))) :
  contains " " name = false ->
  Forall (fun group => fst group <> name
                       /\ contains " " (fst group) = false) groups ->
  help_line name help_text ∉ flat_map group_lines groups.
Proof.
  intros Hname Hall Hin. apply list_elem_of_In, in_flat_map in Hin
    as (group & Hgroup & Hin).
  apply list_elem_of_In in Hgroup, Hin.
  rewrite Forall_forall in Hall. destruct (Hall _ Hgroup) as [Hne Hspace].
  apply group_lines_elem in Hin as [[help_text' Heq]|[Heq|Heq]].
  - apply Hne. symmetry. unfold help_line in Heq.
    apply String.app_inj in Heq. now apply name_before_space in Heq.
  - discriminate Heq.
  - discriminate Heq.
Qed.

End Lines.

(** ** The body and its lines *)

Lemma split_no_sep (sep : ascii) (s : string) :
  contains sep s = false -> split sep s = [s].
Proof.
  unfold contains. induction s as [|c s IH]; [reflexivity|].
  cbn. intros Hnone. apply orb_false_elim in Hnone as [Hc Hs].
  rewrite Ascii.eqb_sym, Hc. now rewrite (IH Hs).
Qed.

Lemma split_append (sep : ascii) (s rest : string) :
  contains sep s = false ->
  split sep (s +:+ String sep rest) = s :: split sep rest.
Proof.
  unfold contains. induction s as [|c s IH]; cbn.
  - now rewrite Ascii.eqb_refl.
  - intros Hnone. apply orb_false_elim in Hnone as [Hc Hs].
    rewrite Ascii.eqb_sym, Hc. now rewrite (IH Hs).
Qed.

(** Splitting the joined text at the separator gives the pieces back when no
    piece contains the separator. *)
Lemma split_join (sep : ascii) (pieces : list string) :
  pieces <> [] ->
  Forall (fun piece => contains sep piece = false) pieces ->
  split sep (join (String sep EmptyString) pieces) = pieces.
Proof.
  intros Hne Hall. induction Hall as [|piece rest Hpiece Hrest IH]; [done|].
  destruct rest as [|next rest].
  - cbn. now apply split_no_sep.
  - change (join (String sep "") (piece :: next :: rest))
      with (piece +:+ String sep (join (String sep "") (next :: rest))).
    rewrite split_append by assumption. f_equal. now apply IH.
Qed.

Section Body.
Context {V : Type} `{PyStr V}.

(** When no emitted line contains a line break, the lines of the body are
    the emitted lines. *)
Lemma payload_lines (metrics_data : list (MetricData V)) :
  formatted_metrics metrics_data <> [] ->
  Forall (fun line => contains newline line = false)
         (formatted_metrics metrics_data) ->
  split newline (metrics_payload metrics_data) = formatted_metrics metrics_data.
Proof. apply split_join. Qed.

(** A single metric with help text: the batch header carries the name as
    given, whatever its characters. *)
Lemma batch_header_of_one (metric : MetricData V) (help_text : string) :
  md_help_text metric = Some help_text -> truthy help_text = true ->
  formatted_metrics [metric]
  = help_line (md_name metric) help_text :: type_line (md_name metric)
    :: instance_lines metric.
Proof.
  intros Hhelp Htruthy. unfold formatted_metrics, grouped_metrics.
  cbn [fold_left group_add flat_map group_lines].
  rewrite Hhelp. cbn [default from_option id]. rewrite Htruthy.
  cbn [app]. now rewrite !app_nil_r.
Qed.

(** The formatter's own header carries the sanitized name. *)
Lemma format_lines_header (metric : MetricData V) (help_text : string) :
  md_help_text metric = Some help_text -> truthy help_text = true ->
  format_lines metric
  = [help_line (sanitize_metric_name (md_name metric)) help_text;
     type_line (sanitize_metric_name (md_name metric));
     data_line metric].
Proof.
  intros Hhelp Htruthy. unfold format_lines.
  rewrite Hhelp. cbn [default from_option id]. now rewrite Htruthy.
Qed.

End Body.

Lemma sanitize_metric_name_chars (name : string) :
  forallb metric_name_char (list_ascii_of_string (sanitize_metric_name name))
  = true.
Proof.
  unfold sanitize_metric_name.
  induction name as [|c rest IH]; [reflexivity|].
  cbn [re_sub_not_in]. destruct (metric_name_char c) eqn:Hc; cbn.
  - now rewrite Hc.
  - exact IH.
Qed.

Lemma sanitize_metric_name_idempotent (name : string) :
  sanitize_metric_name (sanitize_metric_name name) = sanitize_metric_name name.
Proof.
  unfold sanitize_metric_name.
  induction name as [|c rest IH]; [reflexivity|].
  cbn [re_sub_not_in]. destruct (metric_name_char c) eqn:Hc; cbn.
  - now rewrite Hc, IH.
  - now rewrite IH.
Qed.

Section BodyLines.
Context {V : Type} `{PyStr V}.

Lemma contains_append (c : ascii) (s t : string) :
  contains c (s +:+ t) = contains c s || contains c t.
Proof.
  unfold contains. induction s as [|c' s IH]; [reflexivity|].
  cbn. now rewrite IH, orb_assoc.
Qed.

Lemma split_pieces (sep : ascii) (s : string) :
  Forall (fun piece => contains sep piece = false) (split sep s).
Proof.
  induction s as [|c s IH]; cbn.
  - now constructor.
  - destruct (Ascii.eqb c sep) eqn:Hc.
    + now constructor.
    + destruct (split sep s) as [|piece pieces].
      * constructor; [|constructor]. unfold contains. cbn.
        now rewrite Ascii.eqb_sym, Hc.
      * apply Forall_cons in IH as [Hpiece Hpieces].
        constructor; [|assumption]. unfold contains in *. cbn.
        now rewrite Ascii.eqb_sym, Hc.
Qed.

(** The entry of a name in the table holds the instances of the name. *)
Lemma grouped_metrics_entry (metrics_data : list (MetricData V))
    (name : string) (metrics_list : list (MetricData V)) :
  (name, metrics_list) ∈ grouped_metrics metrics_data ->
  metrics_list = instances name metrics_data.
Proof.
  intros Hin. rewrite <- lookup_grouped_metrics.
  assert (Hnd : NoDup (map fst (grouped_metrics metrics_data)))
    by (apply NoDup_grouped_from; constructor).
  induction (grouped_metrics metrics_data) as [|[k l] others IH].
  - now apply elem_of_nil in Hin.
  - cbn [map fst] in Hnd. apply NoDup_cons in Hnd as [Hk Hnd].
    cbn [lookup_group]. apply elem_of_cons in Hin as [Heq | Hin].
    + injection Heq as -> ->. now rewrite String.eqb_refl.
    + destruct (String.eqb_spec k name) as [-> | Hne]; [|auto].
      exfalso. apply Hk. apply list_elem_of_fmap. now exists (name, metrics_list).
Qed.

(** When no name and no help text contains a line break, no emitted line
    does. *)
Lemma formatted_metrics_one_line_each (metrics_data : list (MetricData V)) :
  Forall (fun m => contains newline (md_name m) = false
                   /\ contains newline (default "" (md_help_text m)) = false)
         metrics_data ->
  Forall (fun line => contains newline line = false)
         (formatted_metrics metrics_data).
Proof.
  intros Hclean. apply Forall_forall. intros line Hline.
  apply list_elem_of_In, in_flat_map in Hline as ([name metrics_list] & Hgroup & Hline).
  apply list_elem_of_In in Hgroup, Hline.
  apply grouped_metrics_entry in Hgroup.
  destruct metrics_list as [|first_metric later]; cbn [group_lines] in Hline.
  - now apply elem_of_nil in Hline.
  - assert (Hfirst : first_metric ∈ instances name metrics_data)
      by (rewrite <- Hgroup; apply elem_of_cons; auto).
    unfold instances in Hfirst.
    apply list_elem_of_filter in Hfirst as [Hname Hfirst].
    rewrite Forall_forall in Hclean. destruct (Hclean _ Hfirst) as [Hn Hh].
    rewrite Hname in Hn.
    apply elem_of_app in Hline as [Hline | Hline].
    + destruct (truthy _); [|now apply elem_of_nil in Hline].
      apply elem_of_cons in Hline as [-> | Hline].
      * rewrite !contains_append, Hn, Hh. reflexivity.
      * apply elem_of_cons in Hline as [-> | Hline];
          [|now apply elem_of_nil in Hline].
        rewrite !contains_append, Hn. reflexivity.
    + apply list_elem_of_In, in_flat_map in Hline as (metric & _ & Hline).
      apply list_elem_of_In in Hline. unfold instance_lines in Hline.
      apply list_elem_of_filter in Hline as [_ Hline].
      pose proof (split_pieces newline (format_metric_for_pushgateway metric))
        as Hpieces.
      rewrite Forall_forall in Hpieces. now apply Hpieces.
Qed.

End BodyLines.

Section HelpOnce.
Context {V : Type} `{PyStr V}.

(** C2, as the code has it.  When the first instance of a name carries a
    non-empty help text and no metric name of the sequence contains a space,
    the lines that [push_metrics] joins into the body are: the lines of the
    earlier groups, the HELP line of the name with that help text, its TYPE
    line, the data lines of all instances of the name in input order, and
    the lines of the later groups; the HELP line and the TYPE line occur
    exactly once among them.  When moreover no name and no help text
    contains a line break, these are the lines of the body. *)
Theorem help_type_once (metrics_data : list (MetricData V))
    (first_metric : MetricData V) (later : list (MetricData V))
    (help_text : string) :
  instances (md_name first_metric) metrics_data = first_metric :: later ->
  md_help_text first_metric = Some help_text ->
  truthy help_text = true ->
  Forall (fun m => contains " " (md_name m) = false) metrics_data ->
  let name := md_name first_metric in
  exists before after : list string,
    formatted_metrics metrics_data
    = before
      ++ help_line name help_text :: type_line name
         :: flat_map instance_lines (first_metric :: later)
      ++ after
    /\ length (filter (fun line => line = help_line name help_text)
                      (formatted_metrics metrics_data)) = 1
    /\ length (filter (fun line => line = type_line name)
                      (formatted_metrics metrics_data)) = 1
    /\ (Forall (fun m => contains newline (md_name m) = false
                         /\ contains newline (default "" (md_help_text m))
                            = false) metrics_data ->
        split newline (metrics_payload metrics_data)
        = formatted_metrics metrics_data).
Proof.
  intros Hinst Hhelp Htruthy Hspace name.
  assert (Hne : instances name metrics_data <> [])
    by (unfold name; now rewrite Hinst).
  destruct (grouped_metrics_split name metrics_data Hne)
    as (groups_before & groups_after & Hsplit & Hothers).
  fold name in Hinst. rewrite Hinst in Hsplit.
  apply Forall_app in Hothers as [Hbefore Hafter].
  assert (Hown : group_lines (name, first_metric :: later)
                 = help_line name help_text :: type_line name
                   :: flat_map instance_lines (first_metric :: later)).
  { cbn [group_lines]. rewrite Hhelp. cbn [default from_option id].
    now rewrite Htruthy. }
  assert (Hbody : formatted_metrics metrics_data
                  = flat_map group_lines groups_before
                    ++ help_line name help_text :: type_line name
                       :: flat_map instance_lines (first_metric :: later)
                    ++ flat_map group_lines groups_after).
  { unfold formatted_metrics. rewrite Hsplit, flat_map_app.
    cbn [flat_map]. now rewrite Hown. }
  assert (Hname_space : contains " " name = false).
  { rewrite Forall_forall in Hspace. apply Hspace.
    assert (Hin : first_metric ∈ instances name metrics_data)
      by (rewrite Hinst; apply elem_of_cons; auto).
    unfold instances in Hin. now apply list_elem_of_filter in Hin as [_ Hin]. }
  assert (Hkeys_space : forall groups,
             Forall (fun group : string * list (MetricData V) =>
                       fst group <> name
                       /\ fst group ∈ map md_name metrics_data) groups ->
             Forall (fun group => fst group <> name
                                  /\ contains " " (fst group) = false) groups).
  { intros groups Hgroups. eapply Forall_impl; [exact Hgroups|].
    intros group [Hneq Hin]. split; [done|].
    apply list_elem_of_fmap in Hin as (m & -> & Hm).
    rewrite Forall_forall in Hspace. now apply Hspace. }
  assert (Hdata : forall line, startswith hash line = true ->
             line ∉ flat_map instance_lines (first_metric :: later)).
  { intros line Hhash Hin. apply data_lines_no_hash in Hin. congruence. }
  exists (flat_map group_lines groups_before),
         (flat_map group_lines groups_after).
  split; [exact Hbody|].
  assert (Hlines : Forall (fun m => contains newline (md_name m) = false
                             /\ contains newline (default "" (md_help_text m))
                                = false) metrics_data ->
                   split newline (metrics_payload metrics_data)
                   = formatted_metrics metrics_data).
  { intros Hclean. apply payload_lines.
    - rewrite Hbody. now destruct (flat_map group_lines groups_before).
    - now apply formatted_metrics_one_line_each. }
  rewrite Hbody in *. split; [|split; [|exact Hlines]].
  - rewrite filter_app, !filter_cons, filter_app.
    rewrite decide_True by reflexivity.
    rewrite decide_False by discriminate.
    rewrite (filter_eq_absent _ (flat_map group_lines groups_before))
      by (apply other_groups_no_help; auto).
    rewrite (filter_eq_absent _ (flat_map group_lines groups_after))
      by (apply other_groups_no_help; auto).
    rewrite (filter_eq_absent _ (flat_map instance_lines _))
      by (apply Hdata; reflexivity).
    reflexivity.
  - rewrite filter_app, !filter_cons, filter_app.
    rewrite decide_False by discriminate.
    rewrite decide_True by reflexivity.
    rewrite (filter_eq_absent _ (flat_map group_lines groups_before))
      by (apply other_groups_no_type; eapply Forall_impl; [exact Hbefore|];
          now intros ? [? _]).
    rewrite (filter_eq_absent _ (flat_map group_lines groups_after))
      by (apply other_groups_no_type; eapply Forall_impl; [exact Hafter|];
          now intros ? [? _]).
    rewrite (filter_eq_absent _ (flat_map instance_lines _))
      by (apply Hdata; reflexivity).
    reflexivity.
Qed.

End HelpOnce.

(** ** Concrete metric sequences (integer values) *)

Lemma help_type_once_witness :
  instances "cost" [cost_s3; total_cost; cost_ec2] = [cost_s3; cost_ec2]
  /\ md_help_text cost_s3 = Some "Cost by service"
  /\ truthy "Cost by service" = true
  /\ Forall (fun m : MetricData Z => contains " " (md_name m) = false)
            [cost_s3; total_cost; cost_ec2]
  /\ (exists before after : list string,
        formatted_metrics [cost_s3; total_cost; cost_ec2]
        = before
          ++ "# HELP cost Cost by service" :: "# TYPE cost gauge"
             :: flat_map instance_lines [cost_s3; cost_ec2]
          ++ after)
  /\ length (filter (fun line => line = "# HELP cost Cost by service")
                    (formatted_metrics [cost_s3; total_cost; cost_ec2])) = 1
  /\ length (filter (fun line => line = "# TYPE cost gauge")
                    (formatted_metrics [cost_s3; total_cost; cost_ec2])) = 1
  /\ split newline (metrics_payload [cost_s3; total_cost; cost_ec2])
     = formatted_metrics [cost_s3; total_cost; cost_ec2].
Proof.
  split; [reflexivity|]. split; [reflexivity|]. split; [reflexivity|].
  split; [repeat constructor|].
  destruct (help_type_once [cost_s3; total_cost; cost_ec2] cost_s3 [cost_ec2]
              "Cost by service" eq_refl eq_refl eq_refl
              ltac:(repeat constructor))
    as (before & after & Hbody & Hhelp & Htype & Hlines).
  split; [now exists before, after|]. split; [exact Hhelp|].
  split; [exact Htype|]. apply Hlines. repeat constructor.
Defined.

Example formatted_metrics_ex :
  formatted_metrics [cost_s3; total_cost; cost_ec2]
  = ["# HELP cost Cost by service"; "# TYPE cost gauge";
     "cost{service=" +:+ String dquote "s3" +:+ String dquote "} 12";
     "cost{service=" +:+ String dquote "ec2" +:+ String dquote "} 28";
     "total 40"].
Proof. vm_compute. reflexivity. Qed.

(** C2, as stated, fails.  The header is taken from the first instance of a
    name only: a help text carried by a later instance produces no HELP and
    no TYPE line.  And two names that differ by a space can yield the same
    HELP text twice. *)
Lemma help_text_of_later_instance_ignored :
  formatted_metrics
    [mkMetricData "cost" 1%Z None "" (Some "");
     mkMetricData "cost" 2%Z None "" (Some "Cost by service")]
  = ["cost 1"; "cost 2"]
  /\ formatted_metrics
       [mkMetricData "m" 1%Z None "" (Some "h x");
        mkMetricData "m h" 2%Z None "" (Some "x")]
     = ["# HELP m h x"; "# TYPE m gauge"; "m 1";
        "# HELP m h x"; "# TYPE m h gauge"; "m_h 2"].
Proof. split; vm_compute; reflexivity. Qed.

(** ** Metric names in the batch body *)

(** C3 at a name with an invalid character.  The formatter prints the
    sanitized name on all three lines; the batch body keeps the sanitized
    data line but writes its own HELP and TYPE lines with the name as
    given. *)
Theorem batch_header_keeps_raw_name :
  sanitize_metric_name "aws.cost" = "aws_cost"
  /\ format_lines dotted_cost
     = ["# HELP aws_cost Cost in USD"; "# TYPE aws_cost gauge"; "aws_cost 5"]
  /\ formatted_metrics [dotted_cost]
     = ["# HELP aws.cost Cost in USD"; "# TYPE aws.cost gauge"; "aws_cost 5"].
Proof. repeat split; vm_compute; reflexivity. Qed.

(** ** Delivery: what a run does to the world *)

Lemma after_exchanges_refl (w : World) : after_exchanges w w [].
Proof. unfold after_exchanges. now rewrite app_nil_r. Qed.

Lemma after_exchanges_trans (w1 w2 w3 : World)
    (log1 log2 : list (Request * Outcome)) :
  after_exchanges w1 w2 log1 -> after_exchanges w2 w3 log2 ->
  after_exchanges w1 w3 (log1 ++ log2).
Proof.
  unfold after_exchanges.
  intros (He1 & Hf1 & Hg1 & Hn1 & Hx1) (He2 & Hf2 & Hg2 & Hn2 & Hx2).
  rewrite He2, Hf2, Hg2, Hn2, Hx2, Hx1, app_assoc. auto.
Qed.

Lemma http_send_spec (rq : Request) (w : World) :
  after_exchanges w (snd (Sys.http_send rq w))
    [(rq, fst (Sys.http_send rq w))].
Proof. unfold after_exchanges. cbn. auto. Qed.

Lemma sleep_spec (w : World) : after_exchanges w (snd (Sys.sleep w)) [].
Proof. unfold after_exchanges. cbn. now rewrite app_nil_r. Qed.

Lemma positive_count_Exists {A : Type} (f : A -> bool) (l : list A) :
  (0 <? length (filter f l)) = true <-> Exists (fun x => f x = true) l.
Proof.
  induction l as [|x l IH].
  - cbn. split; [discriminate|]. intros Hex. inversion Hex.
  - rewrite filter_cons, Exists_cons.
    destruct (f x) eqn:Hfx.
    + cbn. tauto.
    + cbn. rewrite IH.
      split; [auto|]. intros [?|?]; [congruence|auto].
Qed.

Section DeliveryFacts.
Context {V : Type} `{PyStr V}.

(** A push of a non-empty sequence is one POST of its body. *)
Lemma push_metrics_posts_once (self : Pusher) (metric : MetricData V)
    (rest : list (MetricData V)) (instance : option string) (w : World) :
  push_metrics self (metric :: rest) instance w
  = (is_status 200
       (fst (Sys.http_send (push_request self (metric :: rest) instance) w)),
     snd (Sys.http_send (push_request self (metric :: rest) instance) w)).
Proof. reflexivity. Qed.

Lemma push_each_spec (self : Pusher) (instance : option string)
    (metrics_data : list (MetricData V)) :
  forall (i success_count : nat) (w : World),
  exists log : list (Request * Outcome),
    after_exchanges w
      (snd (push_each self instance i metrics_data success_count w)) log
    /\ map fst log
       = map (fun metric => push_request self [metric] instance) metrics_data
    /\ fst (push_each self instance i metrics_data success_count w)
       = success_count + length (filter succeeded log).
Proof.
  induction metrics_data as [|metric rest IH]; intros i success_count w.
  - exists []. cbn. split; [apply after_exchanges_refl|]. split; [done|lia].
  - cbn [push_each]. unfold mbind, IO_bind.
    rewrite push_metrics_posts_once.
    set (rq := push_request self [metric] instance).
    set (sent := Sys.http_send rq w).
    pose proof (http_send_spec rq w) as Hsent. fold sent in Hsent.
    set (success_count' :=
           if is_status 200 (fst sent) then S success_count
           else success_count).
    set (paced := (if (0 <? i) && (i mod 10 =? 0) then Sys.sleep else mret tt)
                    (snd sent)).
    assert (Hpaced : after_exchanges (snd sent) (snd paced) []).
    { unfold paced. destruct ((0 <? i) && (i mod 10 =? 0)).
      - apply sleep_spec.
      - apply after_exchanges_refl. }
    destruct paced as [[] w2] eqn:Hw2. cbn [snd] in Hpaced.
    destruct (IH (S i) success_count' w2) as (log & Hafter & Hreqs & Hcount).
    exists ((rq, fst sent) :: log). split; [|split].
    + change ((rq, fst sent) :: log) with ([(rq, fst sent)] ++ [] ++ log).
      eapply after_exchanges_trans; [exact Hsent|].
      eapply after_exchanges_trans; [exact Hpaced|exact Hafter].
    + cbn [map fst]. now rewrite Hreqs.
    + rewrite Hcount. subst success_count'.
      destruct (is_status 200 (fst sent)) eqn:Hstatus.
      * rewrite filter_cons_True
          by (unfold succeeded; cbn [snd]; now rewrite Hstatus).
        cbn [length]. lia.
      * rewrite filter_cons_False
          by (unfold succeeded; cbn [snd]; now rewrite Hstatus).
        lia.
Qed.

(** The fallback posts each metric once, as a sequence of its own, in input
    order, and returns [True] exactly when one of these posts got 200. *)
Lemma push_metrics_individually_spec (self : Pusher)
    (metrics_data : list (MetricData V)) (instance : option string)
    (w : World) :
  exists log : list (Request * Outcome),
    after_exchanges w
      (snd (push_metrics_individually self metrics_data instance w)) log
    /\ map fst log
       = map (fun metric => push_request self [metric] instance) metrics_data
    /\ (fst (push_metrics_individually self metrics_data instance w) = true
        <-> Exists (fun exchange => succeeded exchange = true) log).
Proof.
  destruct (push_each_spec self instance metrics_data 0 0 w)
    as (log & Hafter & Hreqs & Hcount).
  exists log. unfold push_metrics_individually, mbind, IO_bind.
  destruct (push_each self instance 0 metrics_data 0 w) as [count w'].
  cbn [fst snd mret IO_ret] in *. split; [exact Hafter|]. split; [exact Hreqs|].
  rewrite Hcount. cbn [Nat.add]. apply positive_count_Exists.
Qed.

End DeliveryFacts.

Section MainFacts.
Context {V : Type} `{PyStr V} `{JsonLib V} `{PyLib}.

Lemma load_metrics_from_file_world (filename : string) (w : World) :
  snd (load_metrics_from_file filename w) = w.
Proof.
  unfold load_metrics_from_file, mbind, IO_bind, Sys.read_file.
  destruct (w_files w !! filename) as [text|]; [|reflexivity].
  destruct (json_load text); reflexivity.
Qed.

Lemma main_configured (w : World) (url : string)
    (metrics_data : list (MetricData V)) :
  w_env w !! "PROMETHEUS_PUSHGATEWAY_URL" = Some url ->
  truthy url = true ->
  fst (load_metrics_from_file "data/billing_metrics.json" w) = metrics_data ->
  metrics_data <> [] ->
  main w
  = deliver url
      (default "aws-billing-collector" (w_env w !! "PROMETHEUS_JOB_NAME"))
      (default "github-actions" (w_env w !! "PROMETHEUS_INSTANCE_NAME"))
      metrics_data w.
Proof.
  intros Hurl Htruthy Hload Hne.
  pose proof (load_metrics_from_file_world "data/billing_metrics.json" w)
    as Hworld.
  unfold main, deliver, mbind, IO_bind, Sys.getenv, Sys.getenv_default.
  rewrite Hurl. cbn [default from_option id]. rewrite Htruthy. cbn [negb].
  destruct (load_metrics_from_file "data/billing_metrics.json" w)
    as [loaded w'].
  cbn [fst snd] in Hload, Hworld. subst loaded w'.
  destruct metrics_data as [|metric rest]; [done|]. reflexivity.
Qed.

End MainFacts.

Section Fallback.
Context {V : Type} `{PyStr V} `{JsonLib V} `{PyLib}.

(** C4. In a run with the gateway configured and a non-empty snapshot, when
    the batch push returns [False] (any outcome other than a 200 response),
    the exchanges that follow it are exactly one POST per input metric, each
    carrying that metric alone, in input order; and the run returns [True]
    if and only if one of these posts was answered with 200. *)
Theorem fallback_pushes_each_metric_once (w : World) (url : string)
    (metrics_data : list (MetricData V)) :
  w_env w !! "PROMETHEUS_PUSHGATEWAY_URL" = Some url ->
  truthy url = true ->
  fst (load_metrics_from_file "data/billing_metrics.json" w) = metrics_data ->
  metrics_data <> [] ->
  let job_name :=
    default "aws-billing-collector" (w_env w !! "PROMETHEUS_JOB_NAME") in
  let instance :=
    Some (default "github-actions" (w_env w !! "PROMETHEUS_INSTANCE_NAME")) in
  let pusher := PrometheusPusher.init url job_name in
  let batch :=
    push_metrics pusher metrics_data instance (snd (health_check pusher w)) in
  fst batch = false ->
  exists individual : list (Request * Outcome),
    w_exchanges (snd (main w)) = w_exchanges (snd batch) ++ individual
    /\ map fst individual
       = map (fun metric => push_request pusher [metric] instance)
             metrics_data
    /\ (fst (main w) = true
        <-> Exists (fun exchange => succeeded exchange = true) individual).
Proof.
  intros Hurl Htruthy Hload Hne job_name instance pusher batch Hfailed.
  rewrite (main_configured w url metrics_data Hurl Htruthy Hload Hne).
  unfold deliver, mbind, IO_bind. fold job_name pusher.
  destruct (health_check pusher w) as [healthy w1]. cbn [snd] in batch.
  change (Some (default "github-actions"
                  (w_env w !! "PROMETHEUS_INSTANCE_NAME")))
    with instance.
  fold batch. destruct batch as [success w2]. cbn [fst snd] in *.
  subst success.
  destruct (push_metrics_individually_spec pusher metrics_data instance w2)
    as (individual & Hafter & Hreqs & Hresult).
  exists individual.
  destruct (push_metrics_individually pusher metrics_data instance w2)
    as [success w3].
  cbn [fst snd] in Hafter, Hresult.
  destruct Hafter as (_ & _ & _ & _ & Hlog).
  destruct success; cbn; (split; [exact Hlog|]); (split; [exact Hreqs|]);
    exact Hresult.
Qed.

(** C1, as the code has it.  A snapshot file that is missing, or that
    [json.load] rejects, loads as the empty sequence and leaves the world as
    it was; the run then stops with [False] before it contacts the gateway
    or writes a summary. *)
Theorem unreadable_snapshot_fails_run (w : World) :
  (w_files w !! "data/billing_metrics.json" = None
   \/ exists text, w_files w !! "data/billing_metrics.json" = Some text
                   /\ json_load (V := V) text = None) ->
  load_metrics_from_file "data/billing_metrics.json" w
  = (([] : list (MetricData V)), w)
  /\ main (V := V) w = (false, w).
Proof.
  intros Hfile.
  assert (Hload : load_metrics_from_file "data/billing_metrics.json" w
                  = (([] : list (MetricData V)), w)).
  { unfold load_metrics_from_file, mbind, IO_bind, Sys.read_file.
    destruct Hfile as [-> | (text & -> & ->)]; reflexivity. }
  split; [exact Hload|].
  unfold main, mbind, IO_bind, Sys.getenv, Sys.getenv_default.
  destruct (negb _); [reflexivity|]. now rewrite Hload.
Qed.

End Fallback.

(** ** Concrete runs *)

Lemma demo_world_loads :
  fst (load_metrics_from_file "data/billing_metrics.json" demo_world)
  = [cost_s3; total_cost; cost_ec2].
Proof.
  unfold load_metrics_from_file, mbind, IO_bind, Sys.read_file, demo_world.
  cbn [w_files]. rewrite lookup_singleton_eq.
  now rewrite (json_load_dump [cost_s3; total_cost; cost_ec2]).
Qed.

Lemma fallback_pushes_each_metric_once_witness :
  let pusher := PrometheusPusher.init "http://gateway:9091/"
                  "aws-billing-collector" in
  let instance := Some "github-actions" in
  let batch :=
    push_metrics pusher [cost_s3; total_cost; cost_ec2] instance
                 (snd (health_check pusher demo_world)) in
  w_env demo_world !! "PROMETHEUS_PUSHGATEWAY_URL"
  = Some "http://gateway:9091/"
  /\ fst (load_metrics_from_file "data/billing_metrics.json" demo_world)
     = [cost_s3; total_cost; cost_ec2]
  /\ fst batch = false
  /\ exists individual : list (Request * Outcome),
       w_exchanges (snd (main (V := Z) demo_world))
       = w_exchanges (snd batch) ++ individual
       /\ map fst individual
          = map (fun metric => push_request pusher [metric] instance)
                [cost_s3; total_cost; cost_ec2]
       /\ (fst (main (V := Z) demo_world) = true
           <-> Exists (fun exchange => succeeded exchange = true) individual).
Proof.
  split; [reflexivity|]. split; [exact demo_world_loads|].
  split; [reflexivity|].
  apply (fallback_pushes_each_metric_once demo_world "http://gateway:9091/"
           [cost_s3; total_cost; cost_ec2]);
    [reflexivity | reflexivity | exact demo_world_loads | discriminate
    | reflexivity].
Defined.

Lemma unreadable_snapshot_fails_run_witness :
  w_files world_without_snapshot !! "data/billing_metrics.json" = None
  /\ load_metrics_from_file "data/billing_metrics.json" world_without_snapshot
     = (([] : list (MetricData Z)), world_without_snapshot)
  /\ main (V := Z) world_without_snapshot = (false, world_without_snapshot).
Proof.
  split; [reflexivity|].
  apply (unreadable_snapshot_fails_run (V := Z) world_without_snapshot).
  left. reflexivity.
Defined.

(** C1, as stated, fails.  With the gateway configured and a snapshot that
    does not parse, the loaded sequence is empty and the run returns [False],
    not success; nothing is sent. *)
Lemma broken_snapshot_run_returns_false :
  fst (load_metrics_from_file (V := Z) "data/billing_metrics.json"
         world_with_broken_snapshot) = []
  /\ fst (main (V := Z) world_with_broken_snapshot) = false
  /\ w_exchanges (snd (main (V := Z) world_with_broken_snapshot)) = [].
Proof. repeat split. Qed.

Example demo_run :
  fst (main (V := Z) demo_world) = true
  /\ map (fun exchange => (rq_method (fst exchange), snd exchange))
         (w_exchanges (snd (main (V := Z) demo_world)))
     = [(GET, Response 200 "OK");
        (POST, Response 500 "Internal Server Error");
        (POST, Response 200 ""); (POST, RaisedTimeout);
        (POST, Response 400 "Bad Request")].
Proof. split; vm_compute; reflexivity. Qed.

(** ** ISO-8601 timestamps *)

Lemma digit_char_spec (d : N) :
  (d < 10)%N ->
  is_digit (digit_char d) = true /\ (N_of_ascii (digit_char d) - 48 = d)%N.
Proof.
  intros Hd.
  assert (Hcases : d = 0%N \/ d = 1%N \/ d = 2%N \/ d = 3%N \/ d = 4%N
                   \/ d = 5%N \/ d = 6%N \/ d = 7%N \/ d = 8%N \/ d = 9%N)
    by lia.
  repeat (destruct Hcases as [-> | Hcases]; [split; reflexivity|]).
  subst d. split; reflexivity.
Qed.

Lemma read_digits_zero_pad (width : nat) :
  forall (n acc : N) (rest : string),
  (n < 10 ^ N.of_nat width)%N ->
  read_digits width acc (zero_pad width n +:+ rest)
  = Some ((acc * 10 ^ N.of_nat width + n)%N, rest).
Proof.
  induction width as [|w IH]; intros n acc rest Hn.
  - cbn in *. do 2 f_equal. lia.
  - rewrite Nat2N.inj_succ, N.pow_succ_r' in *.
    set (p := (10 ^ N.of_nat w)%N) in *.
    assert (Hp : (0 < p)%N) by (apply N.neq_0_lt_0, N.pow_nonzero; lia).
    assert (Hd : (n / p < 10)%N) by (apply N.Div0.div_lt_upper_bound; lia).
    assert (Hr : (n mod p < p)%N) by (apply N.mod_lt; lia).
    pose proof (N.div_mod n p ltac:(lia)) as Hdm.
    destruct (digit_char_spec _ Hd) as [Hdigit Hvalue].
    cbn [zero_pad String.append read_digits]. fold p.
    rewrite Hdigit, Hvalue, (IH _ _ _ Hr). fold p. do 2 f_equal. lia.
Qed.

Lemma days_in_month_le (y m : N) : (days_in_month y m <= 31)%N.
Proof.
  unfold days_in_month.
  repeat match goal with |- context [if ?b then _ else _] => destruct b end;
    lia.
Qed.

(** Reading the ISO text of a timestamp gives the timestamp back. *)
Lemma fromisoformat_isoformat (d : datetime) :
  valid d = true -> fromisoformat (isoformat d) = Some d.
Proof.
  intros Hvalid. pose proof Hvalid as Hranges. unfold valid in Hranges.
  repeat (apply andb_prop in Hranges as [Hranges ?]).
  repeat match goal with
         | H : (_ <=? _)%N = true |- _ => apply N.leb_le in H
         | H : (_ <? _)%N = true |- _ => apply N.ltb_lt in H
         end.
  pose proof (days_in_month_le (year d) (month d)) as Hdays.
  unfold fromisoformat, isoformat.
  rewrite read_digits_zero_pad by (cbn; lia). cbn [mbind option_bind expect
    String.append Ascii.eqb Bool.eqb].
  rewrite read_digits_zero_pad by (cbn; lia). cbn [mbind option_bind expect
    String.append Ascii.eqb Bool.eqb].
  rewrite read_digits_zero_pad by (cbn; lia). cbn [mbind option_bind expect
    String.append Ascii.eqb Bool.eqb].
  rewrite read_digits_zero_pad by (cbn; lia). cbn [mbind option_bind expect
    String.append Ascii.eqb Bool.eqb].
  rewrite read_digits_zero_pad by (cbn; lia). cbn [mbind option_bind expect
    String.append Ascii.eqb Bool.eqb].
  rewrite read_digits_zero_pad by (cbn; lia). cbn [mbind option_bind].
  rewrite !N.mul_0_l, !N.add_0_l.
  destruct (microsecond d =? 0)%N eqn:Hus.
  - apply N.eqb_eq in Hus. cbn [mbind option_bind truthy].
    replace (mkDatetime _ _ _ _ _ _ 0) with d
      by (destruct d; cbn in *; now subst).
    now rewrite Hvalid.
  - cbn [String.append Ascii.eqb Bool.eqb].
    rewrite <- (append_empty_r (zero_pad 6 _)).
    rewrite read_digits_zero_pad by (cbn; lia). cbn [mbind option_bind truthy].
    rewrite N.mul_0_l, N.add_0_l.
    replace (mkDatetime _ _ _ _ _ _ _) with d by (now destruct d).
    now rewrite Hvalid.
Qed.

(** ** The snapshot round trip *)

Section Snapshot.
Context `{JsonLib float} `{!JsonRoundTrip float}.

Lemma load_after_save (self : AWSBillingCollector)
    (metrics : list BillingMetric) (filename : string) (w : World) :
  truthy (Sys.dirname filename) = true ->
  fst (load_metrics_from_file filename
         (snd (save_metrics_to_file self metrics filename w)))
  = map metric_dict metrics.
Proof.
  intros Hdir. unfold save_metrics_to_file. rewrite Hdir.
  unfold load_metrics_from_file, mbind, IO_bind, Sys.read_file, Sys.write_file.
  cbn [snd w_files]. rewrite lookup_insert_eq.
  now rewrite (json_load_dump (map metric_dict metrics)).
Qed.


End Snapshot.


(** Without a directory part in the path nothing is written. *)
Example save_to_bare_name :
  snd (save_metrics_to_file demo_collector demo_billing_metrics
         "metrics.json" world_without_snapshot)
  = world_without_snapshot.
Proof. reflexivity. Qed.

(** * Further properties *)

(** ** Name sanitizers *)

Section Sanitize.
Variable in_class : ascii -> bool.
Hypothesis underscore_in_class : in_class "_" = true.

Lemma re_sub_chars (s : string) :
  forallb in_class (list_ascii_of_string (re_sub_not_in in_class "_" s)) = true.
Proof.
  induction s as [|c rest IH]; [reflexivity|].
  cbn [re_sub_not_in]. destruct (in_class c) eqn:Hc; cbn.
  - now rewrite Hc.
  - now rewrite underscore_in_class.
Qed.

Lemma re_sub_length (s : string) :
  String.length (re_sub_not_in in_class "_" s) = String.length s.
Proof.
  induction s as [|c rest IH]; [reflexivity|].
  cbn [re_sub_not_in]. destruct (in_class c); cbn; now rewrite IH.
Qed.

Lemma re_sub_fixed (s : string) :
  forallb in_class (list_ascii_of_string s) = true ->
  re_sub_not_in in_class "_" s = s.
Proof.
  induction s as [|c rest IH]; [reflexivity|].
  cbn. intros Hall. apply andb_prop in Hall as [Hc Hrest].
  now rewrite Hc, (IH Hrest).
Qed.

End Sanitize.

Lemma label_char_is_metric_char (c : ascii) :
  label_name_char c = true -> metric_name_char c = true.
Proof.
  unfold label_name_char, metric_name_char. intros ->. reflexivity.
Qed.

(** X1. A sanitized metric name is made of letters, digits, [_] and [:]
    only and is as long as the name given; sanitizing it again changes
    nothing, and a name that is already made of these characters is returned
    as it is (a leading digit included). *)
Theorem sanitize_metric_name_sound (name : string) :
  forallb metric_name_char (list_ascii_of_string (sanitize_metric_name name))
  = true
  /\ String.length (sanitize_metric_name name) = String.length name
  /\ sanitize_metric_name (sanitize_metric_name name)
     = sanitize_metric_name name
  /\ (forallb metric_name_char (list_ascii_of_string name) = true ->
      sanitize_metric_name name = name).
Proof.
  unfold sanitize_metric_name.
  assert (Hchars := re_sub_chars metric_name_char eq_refl name).
  split; [exact Hchars|]. split; [now apply re_sub_length|].
  split; [|now apply re_sub_fixed]. now apply re_sub_fixed.
Qed.

(** X2. A sanitized label name is made of letters, digits and [_] only (a
    colon is replaced), is as long as the name given and is a fixed point of
    both sanitizers. *)
Theorem sanitize_label_name_sound (name : string) :
  forallb label_name_char (list_ascii_of_string (sanitize_label_name name))
  = true
  /\ String.length (sanitize_label_name name) = String.length name
  /\ sanitize_label_name (sanitize_label_name name) = sanitize_label_name name
  /\ sanitize_metric_name (sanitize_label_name name)
     = sanitize_label_name name
  /\ contains ":" (sanitize_label_name name) = false.
Proof.
  unfold sanitize_label_name, sanitize_metric_name.
  assert (Hchars := re_sub_chars label_name_char eq_refl name).
  split; [exact Hchars|]. split; [now apply re_sub_length|].
  split; [now apply re_sub_fixed|]. split.
  - apply re_sub_fixed. revert Hchars.
    induction (list_ascii_of_string (re_sub_not_in label_name_char "_" name))
      as [|c l IH]; [reflexivity|].
    cbn. intros Hall. apply andb_prop in Hall as [Hc Hl].
    now rewrite (label_char_is_metric_char _ Hc), (IH Hl).
  - unfold contains. revert Hchars.
    induction (list_ascii_of_string (re_sub_not_in label_name_char "_" name))
      as [|c l IH]; [reflexivity|].
    cbn [existsb forallb]. intros Hall. apply andb_prop in Hall as [Hc Hl].
    rewrite (IH Hl), orb_false_r.
    destruct (Ascii.eqb ":" c) eqn:Hcolon; [|reflexivity].
    apply Ascii.eqb_eq in Hcolon. subst c. discriminate Hc.
Qed.

(** ** Data lines *)

Lemma truthy_append (s t : string) :
  truthy (s +:+ t) = truthy s || truthy t.
Proof. destruct s; [cbn; now destruct t|reflexivity]. Qed.

Lemma not_truthy_empty (s : string) : truthy s = false -> s = "".
Proof. now destruct s. Qed.

Lemma join_cons_truthy (sep piece : string) (pieces : list string) :
  truthy piece = true -> truthy (join sep (piece :: pieces)) = true.
Proof.
  intros Hpiece. unfold join. destruct pieces as [|next rest]; cbn.
  - exact Hpiece.
  - now rewrite truthy_append, Hpiece.
Qed.

Lemma sanitized_name_no_newline (name : string) :
  contains newline (sanitize_metric_name name) = false.
Proof.
  unfold contains, sanitize_metric_name.
  induction name as [|c rest IH]; [reflexivity|].
  cbn [re_sub_not_in]. destruct (metric_name_char c) eqn:Hc.
  - cbn [list_ascii_of_string existsb]. rewrite IH, orb_false_r.
    destruct (Ascii.eqb newline c) eqn:Hnl; [|reflexivity].
    apply Ascii.eqb_eq in Hnl. subst c. discriminate Hc.
  - cbn. exact IH.
Qed.

Section DataLines.
Context {V : Type} `{PyStr V}.

Lemma label_pair_truthy (kv : string * string) : truthy (label_pair kv) = true.
Proof.
  unfold label_pair. rewrite truthy_append, truthy_append.
  cbn. apply orb_true_r.
Qed.

(** X3. The brace block of a data line is present exactly when the metric
    has at least one label: without labels (the key absent, or an empty
    mapping) the line is the sanitized name, a space and the value; with
    labels it is the name, the comma-separated pairs in braces, a space and
    the value. *)
Theorem data_line_shape (metric_data : MetricData V) :
  match default [] (md_labels metric_data) with
  | [] =>
      data_line metric_data
      = sanitize_metric_name (md_name metric_data)
        +:+ " " +:+ py_str (md_value metric_data)
  | labels =>
      data_line metric_data
      = sanitize_metric_name (md_name metric_data)
        +:+ ("{" +:+ join "," (map label_pair labels) +:+ "}")
        +:+ " " +:+ py_str (md_value metric_data)
  end.
Proof.
  unfold data_line, labels_str.
  destruct (default [] (md_labels metric_data)) as [|kv labels].
  - reflexivity.
  - cbn [map]. now rewrite (join_cons_truthy _ _ _ (label_pair_truthy kv)).
Qed.

Lemma data_line_no_hash (metric_data : MetricData V) :
  startswith hash (data_line metric_data) = false.
Proof.
  unfold data_line. destruct (md_name metric_data) as [|c rest].
  - cbn [sanitize_metric_name re_sub_not_in String.append].
    unfold labels_str.
    destruct (truthy (join "," (map label_pair (default [] (md_labels metric_data)))))
      eqn:Hjoined.
    + reflexivity.
    + now rewrite (not_truthy_empty _ Hjoined).
  - unfold sanitize_metric_name. cbn [re_sub_not_in].
    destruct (metric_name_char c) eqn:Hc; [|reflexivity].
    cbn [String.append startswith].
    destruct (Ascii.eqb c hash) eqn:Hhash; [|reflexivity].
    apply Ascii.eqb_eq in Hhash. subst c. discriminate Hc.
Qed.

Lemma help_line_no_newline (name help_text : string) :
  contains newline name = false -> contains newline help_text = false ->
  contains newline (help_line name help_text) = false.
Proof.
  intros Hn Hh. unfold help_line. now rewrite !contains_append, Hn, Hh.
Qed.

Lemma type_line_no_newline (name : string) :
  contains newline name = false ->
  contains newline (type_line name) = false.
Proof. intros Hn. unfold type_line. now rewrite !contains_append, Hn. Qed.

(** A metric whose texts hold no line break gives the batch body its data
    line and nothing else. *)
Lemma instance_lines_one_line (metric : MetricData V) :
  contains newline (data_line metric) = false ->
  contains newline (default "" (md_help_text metric)) = false ->
  instance_lines metric = [data_line metric].
Proof.
  intros Hdata Hhelp. unfold instance_lines, format_metric_for_pushgateway.
  assert (Hclean : Forall (fun piece => contains newline piece = false)
                          (format_lines metric)).
  { unfold format_lines. apply Forall_app. split.
    - destruct (truthy _); [|constructor].
      constructor; [|constructor; [|constructor]].
      + apply (help_line_no_newline _ _ (sanitized_name_no_newline _) Hhelp).
      + apply (type_line_no_newline _ (sanitized_name_no_newline _)).
    - constructor; [exact Hdata|constructor]. }
  rewrite split_join; [|unfold format_lines; now destruct (truthy _)|exact Hclean].
  unfold format_lines. rewrite filter_app.
  rewrite (filter_cons_True _ (data_line metric))
    by (now rewrite data_line_no_hash).
  rewrite filter_nil. destruct (truthy _); [|reflexivity].
  now rewrite !filter_cons_False, filter_nil by (cbn; auto).
Qed.

(** X4. For metrics whose label values, value text and help text hold no
    line break, the batch body carries exactly one data line per metric: the
    formatter's data line, in the order of the metrics. *)
Theorem clean_metrics_one_data_line_each (metrics_list : list (MetricData V)) :
  Forall (fun metric =>
            contains newline (data_line metric) = false
            /\ contains newline (default "" (md_help_text metric)) = false)
         metrics_list ->
  flat_map instance_lines metrics_list = map data_line metrics_list.
Proof.
  induction 1 as [|metric rest [Hdata Hhelp] _ IH]; [reflexivity|].
  cbn [flat_map map]. now rewrite (instance_lines_one_line _ Hdata Hhelp), IH.
Qed.

End DataLines.

Lemma clean_metrics_one_data_line_each_witness :
  Forall (fun metric : MetricData Z =>
            contains newline (data_line metric) = false
            /\ contains newline (default "" (md_help_text metric)) = false)
         [cost_s3; total_cost; cost_ec2]
  /\ flat_map instance_lines [cost_s3; total_cost; cost_ec2]
     = map data_line [cost_s3; total_cost; cost_ec2].
Proof.
  assert (Hclean : Forall (fun metric : MetricData Z =>
            contains newline (data_line metric) = false
            /\ contains newline (default "" (md_help_text metric)) = false)
         [cost_s3; total_cost; cost_ec2])
    by (repeat constructor).
  split; [exact Hclean|].
  exact (clean_metrics_one_data_line_each _ Hclean).
Defined.

Section HelpBreak.
Context {V : Type} `{PyStr V}.

(** X5. A line break in the help text leaks into the data of the batch
    body.  When the help text is two lines, the second not starting with
    [#], the metric contributes that second line as if it were data, before
    its data line: only the lines that start with [#] are dropped when the
    formatter's header is removed. *)
Theorem help_text_second_line_leaks (metric : MetricData V)
    (first_line second_line : string) :
  md_help_text metric = Some (first_line +:+ String newline second_line) ->
  contains newline first_line = false ->
  contains newline second_line = false ->
  startswith hash second_line = false ->
  contains newline (data_line metric) = false ->
  instance_lines metric = [second_line; data_line metric].
Proof.
  intros Hhelp Hfirst Hsecond Hhash Hdata.
  unfold instance_lines, format_metric_for_pushgateway, format_lines.
  rewrite Hhelp. cbn [default from_option id].
  assert (Htruthy : truthy (first_line +:+ String newline second_line) = true)
    by (rewrite truthy_append; cbn; apply orb_true_r).
  rewrite Htruthy. cbn [app].
  set (name := sanitize_metric_name (md_name metric)).
  assert (Hjoin :
    join (String newline "")
      ["# HELP " +:+ name +:+ " " +:+ first_line +:+ String newline second_line;
       "# TYPE " +:+ name +:+ " gauge"; data_line metric]
    = join (String newline "")
        [help_line name first_line; second_line; type_line name;
         data_line metric]).
  { unfold join, help_line, type_line. cbn [String.concat].
    rewrite !append_assoc. cbn [String.append]. reflexivity. }
  rewrite Hjoin. rewrite split_join; [|discriminate|].
  - rewrite filter_cons_False by (cbn; auto).
    rewrite filter_cons_True by (now rewrite Hhash).
    rewrite filter_cons_False by (cbn; auto).
    rewrite filter_cons_True by (now rewrite data_line_no_hash).
    now rewrite filter_nil.
  - repeat constructor; try assumption.
    + apply help_line_no_newline; [apply sanitized_name_no_newline|assumption].
    + apply type_line_no_newline, sanitized_name_no_newline.
Qed.

(** X6. For a single metric whose name is already valid and whose texts
    hold no line break, the batch rendering and the formatter agree: the
    lines of the body are the formatter's lines. *)
Theorem single_valid_metric_body (metric : MetricData V) :
  sanitize_metric_name (md_name metric) = md_name metric ->
  contains newline (data_line metric) = false ->
  contains newline (default "" (md_help_text metric)) = false ->
  formatted_metrics [metric] = format_lines metric
  /\ split newline (metrics_payload [metric]) = format_lines metric.
Proof.
  intros Hname Hdata Hhelp.
  assert (Hlines : formatted_metrics [metric] = format_lines metric).
  { unfold formatted_metrics, grouped_metrics, format_lines.
    cbn [fold_left group_add flat_map group_lines].
    rewrite (instance_lines_one_line _ Hdata Hhelp), Hname.
    now rewrite !app_nil_r. }
  split; [exact Hlines|].
  unfold metrics_payload. rewrite Hlines. apply split_join.
  - unfold format_lines. now destruct (truthy _).
  - unfold format_lines. apply Forall_app. split.
    + destruct (truthy _); [|constructor].
      constructor; [|constructor; [|constructor]].
      * apply (help_line_no_newline _ _ (sanitized_name_no_newline _) Hhelp).
      * apply (type_line_no_newline _ (sanitized_name_no_newline _)).
    + constructor; [exact Hdata|constructor].
Qed.

End HelpBreak.

Lemma help_text_second_line_leaks_witness :
  md_help_text two_line_help = Some ("Cost" +:+ String newline "per day")
  /\ instance_lines two_line_help = ["per day"; "cost 7"]
  /\ formatted_metrics [two_line_help]
     = ["# HELP cost Cost" +:+ String newline "per day"; "# TYPE cost gauge";
        "per day"; "cost 7"].
Proof.
  split; [reflexivity|]. split; [|vm_compute; reflexivity].
  exact (help_text_second_line_leaks two_line_help "Cost" "per day"
           eq_refl eq_refl eq_refl eq_refl eq_refl).
Defined.

Lemma single_valid_metric_body_witness :
  sanitize_metric_name (md_name cost_s3) = md_name cost_s3
  /\ formatted_metrics [cost_s3] = format_lines cost_s3
  /\ split newline (metrics_payload [cost_s3]) = format_lines cost_s3.
Proof.
  split; [reflexivity|].
  exact (single_valid_metric_body cost_s3 eq_refl eq_refl eq_refl).
Defined.

(** ** Grouping keeps every metric *)

Section GroupingKeeps.
Context {V : Type} `{PyStr V}.

Lemma keys_group_add_eq (metric : MetricData V)
    (grouped : list (string * list (MetricData V))) :
  map fst (group_add metric grouped)
  = map fst grouped
    ++ filter (fun name => name ∉ map fst grouped) [md_name metric].
Proof.
  induction grouped as [|[k l] others IH]; cbn [group_add map fst].
  - rewrite filter_cons_True by apply not_elem_of_nil. reflexivity.
  - destruct (String.eqb_spec k (md_name metric)) as [-> | Hk]; cbn [map fst].
    + rewrite filter_cons_False, filter_nil, app_nil_r; [reflexivity|].
      intros Hnot. apply Hnot, elem_of_cons. auto.
    + rewrite IH. f_equal. f_equal.
      rewrite !filter_cons, !filter_nil.
      destruct (decide (md_name metric ∉ map fst others)) as [Hout | Hin].
      * rewrite decide_True; [reflexivity|].
        rewrite not_elem_of_cons. split; [congruence|assumption].
      * rewrite decide_False; [reflexivity|].
        intros Hnot. apply Hin. intros Hin'. apply Hnot, elem_of_cons. auto.
Qed.

Lemma keys_grouped_from_eq (metrics_data : list (MetricData V)) :
  forall grouped : list (string * list (MetricData V)),
  map fst (fold_left (fun grouped metric => group_add metric grouped)
                     metrics_data grouped)
  = map fst grouped
    ++ filter (fun name => name ∉ map fst grouped)
              (first_occurrences (map md_name metrics_data)).
Proof.
  induction metrics_data as [|metric rest IH]; intros grouped;
    cbn [fold_left map first_occurrences].
  - now rewrite filter_nil, app_nil_r.
  - rewrite IH, keys_group_add_eq.
    destruct (decide (md_name metric ∉ map fst grouped)) as [Hout | Hin].
    + rewrite (filter_cons_True _ (md_name metric) []) by exact Hout.
      rewrite filter_nil, <- app_assoc. cbn [app]. f_equal.
      rewrite (filter_cons_True _ (md_name metric)) by exact Hout. f_equal.
      rewrite list_filter_filter.
      apply list_filter_iff. intros name.
      rewrite not_elem_of_app, not_elem_of_cons. split.
      * intros [Hk [Hne _]]. auto.
      * intros [Hk Hne]. repeat split; auto. apply not_elem_of_nil.
    + rewrite (filter_cons_False _ (md_name metric) []) by exact Hin.
      rewrite filter_nil, app_nil_r. f_equal.
      rewrite (filter_cons_False _ (md_name metric)) by exact Hin.
      rewrite list_filter_filter.
      apply list_filter_iff. intros name. split; [|tauto].
      intros Hk. split; [exact Hk|]. intros ->. contradiction.
Qed.

Lemma members_group_add (metric : MetricData V)
    (grouped : list (string * list (MetricData V))) :
  concat (map snd (group_add metric grouped))
  ≡ₚ concat (map snd grouped) ++ [metric].
Proof.
  induction grouped as [|[k l] others IH]; cbn [group_add map snd concat].
  - reflexivity.
  - destruct (String.eqb k (md_name metric)); cbn [map snd concat].
    + rewrite <- !app_assoc. apply Permutation_app_head.
      apply Permutation_app_comm.
    + rewrite IH. now rewrite app_assoc.
Qed.

Lemma members_grouped_from (metrics_data : list (MetricData V)) :
  forall grouped : list (string * list (MetricData V)),
  concat (map snd (fold_left (fun grouped metric => group_add metric grouped)
                             metrics_data grouped))
  ≡ₚ concat (map snd grouped) ++ metrics_data.
Proof.
  induction metrics_data as [|metric rest IH]; intros grouped;
    cbn [fold_left].
  - now rewrite app_nil_r.
  - rewrite IH, members_group_add, <- app_assoc. reflexivity.
Qed.

(** X7. The grouping table of [push_metrics] is a partition of the input:
    its keys are the metric names, each once, in the order of their first
    occurrence; the entry of a name holds the instances of that name in
    input order and is never empty; and all entries together hold every
    metric exactly once. *)
Theorem grouped_metrics_partition (metrics_data : list (MetricData V)) :
  map fst (grouped_metrics metrics_data)
  = first_occurrences (map md_name metrics_data)
  /\ NoDup (map fst (grouped_metrics metrics_data))
  /\ Forall (fun group => snd group = instances (fst group) metrics_data
                          /\ snd group <> [])
            (grouped_metrics metrics_data)
  /\ concat (map snd (grouped_metrics metrics_data)) ≡ₚ metrics_data.
Proof.
  split; [|split; [|split]].
  - unfold grouped_metrics. rewrite keys_grouped_from_eq. cbn [map app].
    induction (first_occurrences (map md_name metrics_data)) as [|name l IH];
      [reflexivity|].
    rewrite filter_cons_True by apply not_elem_of_nil. now rewrite IH.
  - apply NoDup_grouped_from. constructor.
  - apply Forall_forall. intros [name metrics_list] Hin. cbn [fst snd].
    pose proof (grouped_metrics_entry _ _ _ Hin) as Hentry. split; [exact Hentry|].
    assert (Hkey : name ∈ map md_name metrics_data).
    { assert (Hk : name ∈ map fst (grouped_metrics metrics_data))
        by (apply list_elem_of_fmap; now exists (name, metrics_list)).
      apply keys_grouped_from in Hk as [Hk | Hk]; [|exact Hk].
      cbn in Hk. now apply elem_of_nil in Hk. }
    apply list_elem_of_fmap in Hkey as (metric & Hname & Hmetric).
    rewrite Hentry. intros Hempty.
    assert (Hmem : metric ∈ instances name metrics_data)
      by (unfold instances; apply list_elem_of_filter; split; [congruence|exact Hmetric]).
    rewrite Hempty in Hmem. now apply elem_of_nil in Hmem.
  - unfold grouped_metrics. now rewrite members_grouped_from.
Qed.

End GroupingKeeps.

Lemma filter_all {A : Type} (P : A -> Prop) `{forall x, Decision (P x)}
    (l : list A) :
  Forall P l -> filter P l = l.
Proof.
  induction 1 as [|x l Hx _ IH]; [reflexivity|].
  now rewrite filter_cons_True, IH.
Qed.

Section BodyData.
Context {V : Type} `{PyStr V}.

Lemma group_lines_data (group : string * list (MetricData V)) :
  filter (fun line => negb (startswith hash line)) (group_lines group)
  = flat_map instance_lines (snd group).
Proof.
  destruct group as [name [|first_metric later]]; [reflexivity|].
  cbn [group_lines snd]. rewrite filter_app.
  rewrite (filter_all _ (flat_map instance_lines (first_metric :: later))).
  - destruct (truthy _); [|reflexivity].
    now rewrite !filter_cons_False, filter_nil by (cbn; auto).
  - apply Forall_forall. intros line Hline.
    now rewrite (data_lines_no_hash _ _ Hline).
Qed.

Lemma formatted_metrics_data (groups : list (string * list (MetricData V))) :
  filter (fun line => negb (startswith hash line)) (flat_map group_lines groups)
  = flat_map instance_lines (concat (map snd groups)).
Proof.
  induction groups as [|group rest IH]; [reflexivity|].
  cbn [flat_map map concat].
  now rewrite filter_app, group_lines_data, IH, flat_map_app.
Qed.

(** X8. For metrics whose texts hold no line break, the lines of the batch
    body that do not start with [#] are the data lines of the metrics, each
    metric once (grouping only reorders them). *)
Theorem body_data_lines (metrics_data : list (MetricData V)) :
  Forall (fun metric =>
            contains newline (data_line metric) = false
            /\ contains newline (default "" (md_help_text metric)) = false)
         metrics_data ->
  filter (fun line => negb (startswith hash line))
         (formatted_metrics metrics_data)
  ≡ₚ map data_line metrics_data.
Proof.
  intros Hclean. unfold formatted_metrics. rewrite formatted_metrics_data.
  assert (Hone : flat_map instance_lines metrics_data
                 = map data_line metrics_data).
  { induction Hclean as [|metric rest [Hdata Hhelp] _ IH]; [reflexivity|].
    cbn [flat_map map].
    now rewrite (instance_lines_one_line _ Hdata Hhelp), IH. }
  rewrite <- Hone. apply Permutation_flat_map.
  unfold grouped_metrics. now rewrite members_grouped_from.
Qed.

End BodyData.

Lemma body_data_lines_witness :
  Forall (fun metric : MetricData Z =>
            contains newline (data_line metric) = false
            /\ contains newline (default "" (md_help_text metric)) = false)
         [cost_s3; total_cost; cost_ec2]
  /\ filter (fun line => negb (startswith hash line))
            (formatted_metrics [cost_s3; total_cost; cost_ec2])
     ≡ₚ map data_line [cost_s3; total_cost; cost_ec2].
Proof.
  assert (Hclean : Forall (fun metric : MetricData Z =>
            contains newline (data_line metric) = false
            /\ contains newline (default "" (md_help_text metric)) = false)
         [cost_s3; total_cost; cost_ec2])
    by (repeat constructor).
  split; [exact Hclean|]. exact (body_data_lines _ Hclean).
Defined.

(** ** The push URL *)

Lemma rstrip_decompose (c : ascii) (s : string) :
  exists k, s = rstrip c s +:+ repeat_char c k.
Proof.
  induction s as [|c' rest [k IH]]; [now exists 0|].
  cbn [rstrip]. destruct (rstrip c rest) as [|a kept] eqn:Hrest.
  - cbn [String.append] in IH. destruct (Ascii.eqb_spec c' c) as [-> | Hne].
    + exists (S k). cbn. now rewrite <- IH.
    + exists k. cbn. now rewrite <- IH.
  - exists k. now rewrite IH at 1.
Qed.

Lemma rstrip_no_trailing (c : ascii) (s : string) :
  endswith c (rstrip c s) = false.
Proof.
  induction s as [|c' rest IH]; [reflexivity|].
  cbn [rstrip]. destruct (rstrip c rest) as [|a kept] eqn:Hrest.
  - destruct (Ascii.eqb c' c) eqn:Hc; [reflexivity|]. cbn. exact Hc.
  - exact IH.
Qed.

(** X9. The pusher keeps the gateway URL without its trailing slashes: the
    URL given is the kept one followed by slashes only, and the kept one does
    not end in a slash.  The push URL is the kept URL, [/metrics/job/] and
    the job name, followed by [/instance/] and the instance when an instance
    is given and not empty. *)
Theorem job_url_shape (url job : string) (instance : option string) :
  let self := PrometheusPusher.init url job in
  (exists k, url = pushgateway_url self +:+ repeat_char slash k)
  /\ endswith slash (pushgateway_url self) = false
  /\ job_url self instance
     = pushgateway_url self +:+ "/metrics/job/" +:+ job
       +:+ match instance with
           | Some i => if truthy i then "/instance/" +:+ i else ""
           | None => ""
           end.
Proof.
  cbn [PrometheusPusher.init pushgateway_url job_name].
  split; [apply rstrip_decompose|]. split; [apply rstrip_no_trailing|].
  unfold job_url, join. cbn [pushgateway_url job_name].
  destruct instance as [i|]; [destruct (truthy i)|];
    cbn [app String.concat]; rewrite ?append_assoc; cbn [String.append];
    rewrite ?append_empty_r; reflexivity.
Qed.

(** ** Pacing of the individual pushes *)

Lemma tenth_step (i : nat) :
  1 <= i ->
  i / 10 = (i - 1) / 10 + (if (0 <? i) && (i mod 10 =? 0) then 1 else 0).
Proof.
  intros Hi.
  pose proof (Nat.div_mod_eq i 10) as H1.
  pose proof (Nat.div_mod_eq (i - 1) 10) as H2.
  pose proof (Nat.mod_upper_bound i 10 ltac:(lia)) as H3.
  pose proof (Nat.mod_upper_bound (i - 1) 10 ltac:(lia)) as H4.
  destruct (Nat.ltb_spec 0 i); [|lia]. cbn [andb].
  destruct (Nat.eqb_spec (i mod 10) 0); lia.
Qed.

Section Pacing.
Context {V : Type} `{PyStr V}.

Lemma push_each_sleeps (self : Pusher) (instance : option string)
    (metrics_data : list (MetricData V)) :
  forall (i success_count : nat) (w : World),
  1 <= i ->
  w_sleeps (snd (push_each self instance i metrics_data success_count w))
  = w_sleeps w + ((i + length metrics_data - 1) / 10 - (i - 1) / 10).
Proof.
  induction metrics_data as [|metric rest IH]; intros i success_count w Hi.
  - cbn. replace (i + 0 - 1) with (i - 1) by lia. lia.
  - cbn [push_each]. unfold mbind, IO_bind.
    rewrite push_metrics_posts_once.
    set (sent := Sys.http_send (push_request self [metric] instance) w).
    assert (Hsent : w_sleeps (snd sent) = w_sleeps w) by reflexivity.
    set (success_count' :=
           if is_status 200 (fst sent) then S success_count
           else success_count).
    pose proof (tenth_step i Hi) as Hstep.
    destruct ((0 <? i) && (i mod 10 =? 0)).
    + cbn [Sys.sleep]. rewrite IH by lia. cbn [w_sleeps length]. rewrite Hsent.
      replace (S i + length rest - 1) with (i + S (length rest) - 1) by lia.
      replace (S i - 1) with i by lia.
      pose proof (Nat.Div0.div_le_mono i (i + S (length rest) - 1) 10
                    ltac:(lia)).
      lia.
    + cbn [mret IO_ret]. rewrite IH by lia. cbn [length]. rewrite Hsent.
      replace (S i + length rest - 1) with (i + S (length rest) - 1) by lia.
      replace (S i - 1) with i by lia. lia.
Qed.

(** X10. The individual fallback pauses after the pushes at the indices 10,
    20, ... only: pushing [n] metrics one by one calls [time.sleep] exactly
    [(n - 1) / 10] times (never for up to ten metrics), whatever the gateway
    answers. *)
Theorem individual_push_pacing (self : Pusher)
    (metrics_data : list (MetricData V)) (instance : option string)
    (w : World) :
  w_sleeps (snd (push_metrics_individually self metrics_data instance w))
  = w_sleeps w + (length metrics_data - 1) / 10.
Proof.
  unfold push_metrics_individually, mbind, IO_bind.
  destruct metrics_data as [|metric rest].
  - cbn. lia.
  - cbn [push_each]. unfold mbind, IO_bind.
    rewrite push_metrics_posts_once.
    set (sent := Sys.http_send (push_request self [metric] instance) w).
    assert (Hsent : w_sleeps (snd sent) = w_sleeps w) by reflexivity.
    cbn [Nat.ltb Nat.leb andb mret IO_ret].
    pose proof (push_each_sleeps self instance rest 1
                  (if is_status 200 (fst sent) then 1 else 0) (snd sent)
                  ltac:(lia)) as Hrest.
    destruct (push_each self instance 1 rest _ (snd sent)) as [count w'].
    unfold mret, IO_ret. cbn [snd] in *. rewrite Hrest, Hsent. cbn [length].
    replace (1 + length rest - 1) with (length rest) by lia.
    replace (S (length rest) - 1) with (length rest) by lia.
    cbn. lia.
Qed.

End Pacing.

(** ** What a delivery run leaves behind *)

Section RunFrame.
Context {V : Type} `{PyStr V} `{JsonLib V} `{PyLib}.




(** Without a gateway URL (the variable unset or empty) the delivery run
    returns [False] at once, whatever the snapshot holds: nothing is sent
    and nothing is written. *)
Lemma main_without_gateway_url (w : World) :
  (w_env w !! "PROMETHEUS_PUSHGATEWAY_URL" = None
   \/ w_env w !! "PROMETHEUS_PUSHGATEWAY_URL" = Some "") ->
  main (V := V) w = (false, w).
Proof.
  intros Hurl. unfold main, mbind, IO_bind, Sys.getenv, Sys.getenv_default.
  destruct Hurl as [-> | ->]; reflexivity.
Qed.


(** X12. When the batch push is answered with 200, the run returns [True]
    after exactly two requests (the health check and the batch): no metric
    is pushed on its own, nothing sleeps, and the summary written holds the
    clock's ISO text, the number of metrics, the URL as configured, the job
    and instance names and the status [success]. *)
Theorem main_batch_success (w : World) (url : string)
    (metrics_data : list (MetricData V)) :
  w_env w !! "PROMETHEUS_PUSHGATEWAY_URL" = Some url ->
  truthy url = true ->
  fst (load_metrics_from_file "data/billing_metrics.json" w) = metrics_data ->
  metrics_data <> [] ->
  let job_name :=
    default "aws-billing-collector" (w_env w !! "PROMETHEUS_JOB_NAME") in
  let instance_name :=
    default "github-actions" (w_env w !! "PROMETHEUS_INSTANCE_NAME") in
  let pusher := PrometheusPusher.init url job_name in
  let checked := health_check pusher w in
  let batch := push_metrics pusher metrics_data (Some instance_name)
                            (snd checked) in
  fst batch = true ->
  fst (main w) = true
  /\ w_exchanges (snd (main w))
     = w_exchanges w
       ++ [(mkRequest GET (urljoin (pushgateway_url pusher) "/-/healthy") [] "",
            w_gateway w (w_exchanges w)
              (mkRequest GET (urljoin (pushgateway_url pusher) "/-/healthy")
                         [] ""));
           (push_request pusher metrics_data (Some instance_name),
            w_gateway w (w_exchanges (snd checked))
              (push_request pusher metrics_data (Some instance_name)))]
  /\ w_sleeps (snd (main w)) = w_sleeps w
  /\ w_files (snd (main w))
     = <["data/push_summary.json"
         := json_dump_summary
              (mkSummary (isoformat (w_now w)) (length metrics_data) url
                         job_name instance_name "success")]> (w_files w).
Proof.
  intros Hurl Htruthy Hload Hne job_name instance_name pusher checked batch
         Hbatch.
  rewrite (main_configured w url metrics_data Hurl Htruthy Hload Hne).
  unfold deliver, mbind, IO_bind. fold job_name instance_name pusher.
  fold checked. destruct checked as [healthy w1] eqn:Hchecked.
  cbn [snd] in batch. fold batch.
  destruct batch as [success w2] eqn:Hpushed. cbn [fst] in Hbatch.
  subst success. cbn.
  destruct metrics_data as [|metric rest]; [done|].
  unfold batch in Hpushed. rewrite push_metrics_posts_once in Hpushed.
  injection Hpushed as _ <-.
  unfold checked, health_check, mbind, IO_bind in Hchecked.
  cbn in Hchecked. injection Hchecked as _ <-.
  cbn. rewrite <- app_assoc. repeat split.
Qed.

End RunFrame.

(** ** The gateway check of the setup script *)

(** X13. With a gateway URL configured, [test_prometheus_pushgateway] sends
    at most three requests, in this order: the health check, the sample push
    and the clean-up DELETE of the pushed job; at least the health check is
    sent.  It returns [True] exactly when the health check and the push were
    answered with 200 and the clean-up was answered at all: the status of
    the clean-up is not looked at, but an exception in it makes the test
    fail. *)
Theorem test_gateway_requests (w : World) (url : string) :
  w_env w !! "PROMETHEUS_PUSHGATEWAY_URL" = Some url ->
  truthy url = true ->
  let run := TestSetup.test_prometheus_pushgateway w in
  let push_url := rstrip slash url +:+ "/metrics/job/test" in
  exists log : list (Request * Outcome),
    w_exchanges (snd run) = w_exchanges w ++ log
    /\ log <> []
    /\ map fst log
       `prefix_of`
       [mkRequest GET (rstrip slash url +:+ "/-/healthy") [] "";
        mkRequest POST push_url
          [("Content-Type", "text/plain; version=0.0.4")]
          TestSetup.test_metric;
        mkRequest DELETE push_url [] ""]
    /\ (fst run = true
        <-> exists t1 t2 c3 t3,
              map snd log
              = [Response 200 t1; Response 200 t2; Response c3 t3]).
Proof.
  intros Hurl Htruthy. cbv zeta.
  unfold TestSetup.test_prometheus_pushgateway, mbind, IO_bind, Sys.getenv.
  rewrite Hurl. cbn [default from_option id]. rewrite Htruthy. cbn [negb].
  unfold Sys.http_send. cbn [w_gateway w_exchanges w_env w_files w_now w_sleeps].
  set (rq1 := mkRequest GET (rstrip slash url +:+ "/-/healthy") [] "").
  set (rq2 := mkRequest POST (rstrip slash url +:+ "/metrics/job/test")
                [("Content-Type", "text/plain; version=0.0.4")]
                TestSetup.test_metric).
  set (rq3 := mkRequest DELETE (rstrip slash url +:+ "/metrics/job/test") [] "").
  destruct (w_gateway w (w_exchanges w) rq1) as [c1 t1| | |] eqn:Ho1;
    try (eexists [(rq1, _)]; cbn; split; [reflexivity|]; split; [discriminate|];
         split; [now exists [rq2; rq3]|];
         split; [discriminate|intros (? & ? & ? & ? & ?); discriminate]).
  destruct (Z.eqb_spec c1 200) as [-> | Hc1].
  2:{ eexists [(rq1, _)]; cbn; split; [reflexivity|]; split; [discriminate|].
      split; [now exists [rq2; rq3]|].
      split; [discriminate|intros (? & ? & ? & ? & ?); discriminate]. }
  cbn [w_gateway w_exchanges w_env w_files w_now w_sleeps].
  destruct (w_gateway w (w_exchanges w ++ [(rq1, Response 200 t1)]) rq2)
    as [c2 t2| | |] eqn:Ho2;
    try (eexists [(rq1, _); (rq2, _)]; cbn; rewrite <- app_assoc;
         split; [reflexivity|]; split; [discriminate|];
         split; [now exists [rq3]|];
         split; [discriminate|intros (? & ? & ? & ? & ?); discriminate]).
  destruct (Z.eqb_spec c2 200) as [-> | Hc2].
  2:{ eexists [(rq1, _); (rq2, _)]; cbn; rewrite <- app_assoc.
      split; [reflexivity|]; split; [discriminate|].
      split; [now exists [rq3]|].
      split; [discriminate|intros (? & ? & ? & ? & Heq)].
      injection Heq as _ Heq _. congruence. }
  cbn [w_gateway w_exchanges w_env w_files w_now w_sleeps].
  destruct (w_gateway w ((w_exchanges w ++ [(rq1, Response 200 t1)])
                         ++ [(rq2, Response 200 t2)]) rq3)
    as [c3 t3| | |] eqn:Ho3;
    eexists [(rq1, _); (rq2, _); (rq3, _)]; cbn; rewrite <- !app_assoc;
    (split; [reflexivity|]); (split; [discriminate|]);
    (split; [now exists []|]).
  - split; [intros _; now exists t1, t2, c3, t3|reflexivity].
  - split; [discriminate|intros (? & ? & ? & ? & ?); discriminate].
  - split; [discriminate|intros (? & ? & ? & ? & ?); discriminate].
  - split; [discriminate|intros (? & ? & ? & ? & ?); discriminate].
Qed.

(** ** Cost metrics *)

Lemma group_metrics_sound (self : AWSBillingCollector) (date : string)
    (current_time : datetime) (group : CostGroup) :
  Forall (fun m => (0 <? bm_value m)%float = true
                   /\ (bm_name m = "aws_billing_blended_cost_usd"
                       \/ bm_name m = "aws_billing_unblended_cost_usd")
                   /\ map fst (bm_labels m)
                      = ["service"; "account_id"; "date"; "currency"]
                   /\ bm_timestamp m = current_time)
         (group_metrics self date current_time group).
Proof.
  unfold group_metrics. apply Forall_app. split.
  - destruct (0 <? Amount (BlendedCost group))%float eqn:Hpos;
      [|constructor].
    apply Forall_singleton. cbn. auto.
  - destruct (0 <? Amount (UnblendedCost group))%float eqn:Hpos;
      [|constructor].
    apply Forall_singleton. cbn. auto.
Qed.

Lemma Forall_flat_map_intro {A B : Type} (P : B -> Prop) (f : A -> list B)
    (l : list A) :
  (forall x, Forall P (f x)) -> Forall P (flat_map f l).
Proof.
  intros Hf. induction l as [|x l IH]; [constructor|].
  cbn [flat_map]. apply Forall_app. auto.
Qed.

(** X14. Whatever the provider answers, every metric that
    [get_current_costs] returns has a value above zero, is a blended or an
    unblended cost, carries the labels [service], [account_id], [date] and
    [currency] in this order and the clock's time; the call changes nothing
    in the world, and a failing query gives the empty list. *)
Theorem cost_metrics_positive (self : AWSBillingCollector) (days_back : Z)
    (w : World) :
  snd (get_current_costs self days_back w) = w
  /\ Forall (fun m => (0 <? bm_value m)%float = true
                      /\ (bm_name m = "aws_billing_blended_cost_usd"
                          \/ bm_name m = "aws_billing_unblended_cost_usd")
                      /\ map fst (bm_labels m)
                         = ["service"; "account_id"; "date"; "currency"]
                      /\ bm_timestamp m = w_now w)
            (fst (get_current_costs self days_back w))
  /\ (get_cost_and_usage (cloud self) (w_now w) days_back = ApiRaise ->
      fst (get_current_costs self days_back w) = []).
Proof.
  unfold get_current_costs, mbind, IO_bind, Sys.now.
  destruct (get_cost_and_usage (cloud self) (w_now w) days_back)
    as [results|]; cbn [fst snd mret IO_ret].
  - split; [reflexivity|]. split; [|discriminate].
    apply Forall_flat_map_intro. intros result.
    apply Forall_flat_map_intro. intros group. apply group_metrics_sound.
  - repeat split. constructor.
Qed.

(** ** Budget metrics *)

Lemma budgets_loop_names (self : AWSBillingCollector) (current_time : datetime)
    (budgets : list Budget) :
  forall metrics : list BillingMetric,
  exists k,
    k <= length budgets
    /\ map bm_name (budgets_loop self current_time budgets metrics)
       = map bm_name metrics ++ concat (replicate k budget_metric_names).
Proof.
  induction budgets as [|budget rest IH]; intros metrics.
  - exists 0. cbn. now rewrite app_nil_r.
  - cbn [budgets_loop].
    destruct (describe_budget_performance_history _ _ _) as [history|].
    + destruct (last history) as [latest|].
      * rewrite utilization_value.
        match goal with
        | |- context [budgets_loop _ _ rest ?acc] =>
            destruct (IH acc) as (k & Hk & Hnames)
        end.
        exists (S k). split; [cbn; lia|].
        rewrite Hnames, !map_app, <- !app_assoc. reflexivity.
      * destruct (IH metrics) as (k & Hk & Hnames).
        exists k. split; [cbn; lia|exact Hnames].
    + exists 0. cbn. split; [lia|now rewrite app_nil_r].
Qed.

Lemma budgets_loop_labels (self : AWSBillingCollector)
    (current_time : datetime) (budgets : list Budget) :
  forall metrics : list BillingMetric,
  Forall (fun m => map fst (bm_labels m)
                   = ["budget_name"; "account_id"; "budget_type"]
                   /\ bm_timestamp m = current_time) metrics ->
  Forall (fun m => map fst (bm_labels m)
                   = ["budget_name"; "account_id"; "budget_type"]
                   /\ bm_timestamp m = current_time)
         (budgets_loop self current_time budgets metrics).
Proof.
  induction budgets as [|budget rest IH]; intros metrics Hmetrics;
    [exact Hmetrics|].
  cbn [budgets_loop].
  destruct (describe_budget_performance_history _ _ _) as [history|];
    [|exact Hmetrics].
  destruct (last history) as [latest|]; [|now apply IH].
  rewrite utilization_value. apply IH.
  repeat (apply Forall_app; split); try exact Hmetrics;
    repeat constructor.
Qed.

(** X15. Budget metrics come in complete groups of four.  Whatever the
    provider answers, the names of the metrics that [get_budget_metrics]
    returns are the four budget names (limit, actual spend, forecasted
    spend, utilization) repeated, at most once per budget; every metric
    carries the labels [budget_name], [account_id] and [budget_type] and the
    clock's time; and the world is left as it was. *)
Theorem budget_metrics_in_fours (self : AWSBillingCollector) (w : World) :
  snd (get_budget_metrics self w) = w
  /\ (exists k,
        map bm_name (fst (get_budget_metrics self w))
        = concat (replicate k budget_metric_names)
        /\ forall budgets,
             describe_budgets (cloud self) (account_id self) = ApiOk budgets ->
             k <= length budgets)
  /\ Forall (fun m => map fst (bm_labels m)
                      = ["budget_name"; "account_id"; "budget_type"]
                      /\ bm_timestamp m = w_now w)
            (fst (get_budget_metrics self w)).
Proof.
  unfold get_budget_metrics, mbind, IO_bind, Sys.now.
  destruct (describe_budgets (cloud self) (account_id self)) as [budgets|];
    cbn [fst snd mret IO_ret].
  - split; [reflexivity|]. split.
    + destruct (budgets_loop_names self (w_now w) budgets [])
        as (k & Hk & Hnames).
      exists k. split; [exact Hnames|]. intros ? [= <-]. exact Hk.
    + apply budgets_loop_labels. constructor.
  - split; [reflexivity|]. split; [|constructor].
    exists 0. split; [reflexivity|discriminate].
Qed.

Lemma budgets_loop_app (self : AWSBillingCollector) (current_time : datetime)
    (before rest : list Budget) :
  Forall (fun budget =>
            exists history,
              describe_budget_performance_history (cloud self)
                (account_id self) (BudgetName budget) = ApiOk history)
         before ->
  forall metrics : list BillingMetric,
  budgets_loop self current_time (before ++ rest) metrics
  = budgets_loop self current_time rest
      (budgets_loop self current_time before metrics).
Proof.
  induction 1 as [|budget before [history Hhistory] _ IH]; intros metrics;
    [reflexivity|].
  cbn [app budgets_loop]. rewrite Hhistory.
  destruct (last history) as [latest|]; [|apply IH].
  rewrite utilization_value. apply IH.
Qed.

(** X16. A failing performance query ends the budget collection: the
    metrics of the budgets before it are kept, and the budgets after it are
    not collected (unlike the per-service queries, which are skipped one by
    one). *)
Theorem budget_failure_keeps_earlier (self : AWSBillingCollector)
    (current_time : datetime) (before after : list Budget) (failing : Budget)
    (metrics : list BillingMetric) :
  Forall (fun budget =>
            exists history,
              describe_budget_performance_history (cloud self)
                (account_id self) (BudgetName budget) = ApiOk history)
         before ->
  describe_budget_performance_history (cloud self) (account_id self)
    (BudgetName failing) = ApiRaise ->
  budgets_loop self current_time (before ++ failing :: after) metrics
  = budgets_loop self current_time before metrics.
Proof.
  intros Hbefore Hfailing. rewrite (budgets_loop_app _ _ _ _ Hbefore).
  cbn [budgets_loop]. now rewrite Hfailing.
Qed.

Lemma budget_failure_keeps_earlier_witness :
  Forall (fun budget =>
            exists history,
              describe_budget_performance_history (cloud partial_collector)
                (account_id partial_collector) (BudgetName budget)
              = ApiOk history)
         [demo_budget]
  /\ describe_budget_performance_history (cloud partial_collector)
       (account_id partial_collector) (BudgetName broken_budget) = ApiRaise
  /\ budgets_loop partial_collector demo_time
       ([demo_budget] ++ broken_budget :: [unfunded_budget]) []
     = budgets_loop partial_collector demo_time [demo_budget] [].
Proof.
  assert (Hbefore :
    Forall (fun budget =>
              exists history,
                describe_budget_performance_history (cloud partial_collector)
                  (account_id partial_collector) (BudgetName budget)
                = ApiOk history)
           [demo_budget]).
  { constructor; [|constructor]. now exists [demo_performance]. }
  split; [exact Hbefore|]. split; [reflexivity|].
  exact (budget_failure_keeps_earlier partial_collector demo_time [demo_budget]
           [unfunded_budget] broken_budget [] Hbefore eq_refl).
Defined.

(** ** CloudWatch metrics *)

Lemma services_loop_flat_map (self : AWSBillingCollector)
    (cloudwatch : CloudWatchClient) (query_time current_time : datetime)
    (services : list string) :
  forall metrics : list BillingMetric,
  services_loop self cloudwatch query_time current_time services metrics
  = metrics
    ++ flat_map (service_metrics self cloudwatch query_time current_time)
                services.
Proof.
  induction services as [|service rest IH]; intros metrics.
  - cbn. now rewrite app_nil_r.
  - cbn [services_loop flat_map]. unfold service_metrics at 1.
    destruct (get_metric_statistics cloudwatch query_time _) as [datapoints|].
    + now rewrite IH, <- app_assoc.
    + now rewrite IH.
Qed.

Lemma service_metrics_named (self : AWSBillingCollector)
    (cloudwatch : CloudWatchClient) (query_time current_time : datetime)
    (services : list string) :
  Forall (fun m => bm_name m = "aws_billing_estimated_charges_by_service_usd"
                   /\ bm_timestamp m = current_time)
         (flat_map (service_metrics self cloudwatch query_time current_time)
                   services).
Proof.
  apply Forall_flat_map_intro. intros service. unfold service_metrics.
  destruct (get_metric_statistics cloudwatch query_time _) as [datapoints|];
    [|constructor].
  apply Forall_map. apply Forall_true. intros datapoint. now split.
Qed.

Section SetOfServices.
Context `{PySet}.

Lemma get_cloudwatch_billing_metrics_world (self : AWSBillingCollector)
    (cloudwatch : CloudWatchClient) (w : World) :
  snd (get_cloudwatch_billing_metrics self cloudwatch w) = w.
Proof.
  unfold get_cloudwatch_billing_metrics, mbind, IO_bind, Sys.now.
  destruct (get_metric_statistics cloudwatch (w_now w) _); [|reflexivity].
  cbn. destruct (list_metrics cloudwatch); reflexivity.
Qed.

Lemma get_cloudwatch_billing_metrics_ok (self : AWSBillingCollector)
    (cloudwatch : CloudWatchClient) (w : World) (totals : list Datapoint) :
  get_metric_statistics cloudwatch (w_now w) [mkDimension "Currency" "USD"]
  = ApiOk totals ->
  fst (get_cloudwatch_billing_metrics self cloudwatch w)
  = map (total_charges_metric self (w_now w)) totals
    ++ match list_metrics cloudwatch with
       | ApiRaise => []
       | ApiOk listed =>
           flat_map (service_metrics self cloudwatch (w_now w) (w_now w))
                    (set_iter (service_names listed))
       end.
Proof.
  intros Htotals.
  unfold get_cloudwatch_billing_metrics, mbind, IO_bind, Sys.now.
  rewrite Htotals. cbn.
  destruct (list_metrics cloudwatch) as [listed|]; cbn.
  - apply services_loop_flat_map.
  - now rewrite app_nil_r.
Qed.

(** X17. The total charges are kept whatever happens afterwards, and nothing
    is filtered.  When the first query answers, the result starts with one
    total-charges metric per datapoint (a zero or negative maximum
    included), followed only by per-service metrics; when the listing of the
    services raises, the totals alone are returned; when the first query
    raises, the result is empty.  The world is left as it was. *)
Theorem cloudwatch_totals_kept (self : AWSBillingCollector)
    (cloudwatch : CloudWatchClient) (w : World) :
  let metrics := fst (get_cloudwatch_billing_metrics self cloudwatch w) in
  snd (get_cloudwatch_billing_metrics self cloudwatch w) = w
  /\ (get_metric_statistics cloudwatch (w_now w) [mkDimension "Currency" "USD"]
      = ApiRaise -> metrics = [])
  /\ (forall totals,
        get_metric_statistics cloudwatch (w_now w)
          [mkDimension "Currency" "USD"] = ApiOk totals ->
        exists by_service,
          metrics
          = map (total_charges_metric self (w_now w)) totals ++ by_service
          /\ map bm_value (take (length totals) metrics) = map Maximum totals
          /\ Forall (fun m =>
                       bm_name m
                       = "aws_billing_estimated_charges_by_service_usd"
                       /\ bm_timestamp m = w_now w) by_service
          /\ (list_metrics cloudwatch = ApiRaise -> by_service = [])).
Proof.
  cbv zeta. split; [apply get_cloudwatch_billing_metrics_world|]. split.
  - intros Hraise.
    unfold get_cloudwatch_billing_metrics, mbind, IO_bind, Sys.now.
    now rewrite Hraise.
  - intros totals Htotals.
    rewrite (get_cloudwatch_billing_metrics_ok self cloudwatch w totals Htotals).
    eexists. split; [reflexivity|]. split.
    + rewrite take_app_length'; [|now rewrite length_map].
      rewrite map_map. reflexivity.
    + destruct (list_metrics cloudwatch) as [listed|].
      * split; [apply service_metrics_named|discriminate].
      * split; [constructor|reflexivity].
Qed.

Context `{!PySetLaw}.

Lemma set_iter_remove_dups (added : list string) :
  set_iter added ≡ₚ remove_dups added.
Proof.
  apply NoDup_Permutation.
  - apply set_iter_NoDup.
  - apply NoDup_remove_dups.
  - intros x. rewrite set_iter_elem. now rewrite elem_of_remove_dups.
Qed.

(** X18. One failing service does not cost the others their metrics, and a
    service listed several times is queried once.  When the first query and
    the listing answer, the metrics after the totals are, up to the order in
    which the set of service names is walked, those of each distinct listed
    service name: one per datapoint of its query, none when its query
    raises. *)
Theorem cloudwatch_services_each_once (self : AWSBillingCollector)
    (cloudwatch : CloudWatchClient) (w : World) (totals : list Datapoint)
    (listed : list ListedMetric) :
  get_metric_statistics cloudwatch (w_now w) [mkDimension "Currency" "USD"]
  = ApiOk totals ->
  list_metrics cloudwatch = ApiOk listed ->
  exists by_service,
    fst (get_cloudwatch_billing_metrics self cloudwatch w)
    = map (total_charges_metric self (w_now w)) totals ++ by_service
    /\ by_service
       ≡ₚ flat_map (service_metrics self cloudwatch (w_now w) (w_now w))
                   (remove_dups (service_names listed)).
Proof.
  intros Htotals Hlisted.
  rewrite (get_cloudwatch_billing_metrics_ok self cloudwatch w totals Htotals).
  rewrite Hlisted. eexists. split; [reflexivity|].
  apply Permutation_flat_map, set_iter_remove_dups.
Qed.

End SetOfServices.

Lemma first_seen_order_law : @PySetLaw first_seen_order.
Proof.
  split.
  - intros added. apply NoDup_remove_dups.
  - intros added x. apply elem_of_remove_dups.
Qed.

Lemma cloudwatch_services_each_once_witness :
  get_metric_statistics demo_cloudwatch (w_now collector_world)
    [mkDimension "Currency" "USD"] = ApiOk [mkDatapoint 42.5]
  /\ service_names
       [mkListedMetric [mkDimension "ServiceName" "AmazonS3";
                        mkDimension "Currency" "USD"];
        mkListedMetric [mkDimension "ServiceName" "AmazonEC2";
                        mkDimension "Currency" "USD"];
        mkListedMetric [mkDimension "Currency" "USD"];
        mkListedMetric [mkDimension "ServiceName" "AmazonS3";
                        mkDimension "LinkedAccount" "123456789012"]]
     = ["AmazonS3"; "AmazonEC2"; "AmazonS3"]
  /\ exists by_service,
       fst (get_cloudwatch_billing_metrics (H := first_seen_order)
              demo_collector demo_cloudwatch collector_world)
       = map (total_charges_metric demo_collector (w_now collector_world))
             [mkDatapoint 42.5] ++ by_service
       /\ by_service
          ≡ₚ flat_map (service_metrics demo_collector demo_cloudwatch
                         (w_now collector_world) (w_now collector_world))
                      (remove_dups ["AmazonS3"; "AmazonEC2"; "AmazonS3"]).
Proof.
  split; [reflexivity|]. split; [reflexivity|].
  exact (@cloudwatch_services_each_once first_seen_order first_seen_order_law
           demo_collector demo_cloudwatch collector_world [mkDatapoint 42.5] _
           eq_refl eq_refl).
Defined.

(** ** Saving the snapshot *)

Lemma upto_last_absent (c : ascii) (s : string) :
  contains c s = false -> Sys.upto_last c s = "".
Proof.
  destruct s as [|c' rest]; [reflexivity|].
  unfold contains. cbn [list_ascii_of_string existsb Sys.upto_last].
  intros Habsent. apply orb_false_elim in Habsent as [Hhead Hrest].
  fold (contains c rest). rewrite Ascii.eqb_sym, Hhead. cbn.
  unfold contains. now rewrite Hrest.
Qed.

Lemma upto_last_present (c : ascii) (s : string) :
  contains c s = true -> truthy (Sys.upto_last c s) = true.
Proof.
  destruct s as [|c' rest]; [discriminate|].
  unfold contains. cbn [list_ascii_of_string existsb Sys.upto_last].
  intros Hpresent. fold (contains c rest).
  rewrite (Ascii.eqb_sym c' c). unfold contains at 1. now rewrite Hpresent.
Qed.

Lemma rstrip_kept (c : ascii) (s : string) :
  forallb (Ascii.eqb c) (list_ascii_of_string s) = false ->
  truthy (rstrip c s) = true.
Proof.
  induction s as [|c' rest IH]; [discriminate|].
  cbn [list_ascii_of_string forallb rstrip]. intros Hother.
  destruct (rstrip c rest) as [|a kept] eqn:Hrest; [|reflexivity].
  destruct (Ascii.eqb c' c) eqn:Hc; [|reflexivity].
  rewrite Ascii.eqb_sym, Hc in Hother. cbn in Hother.
  now apply IH in Hother.
Qed.

Lemma dirname_truthy (filename : string) :
  truthy (Sys.dirname filename) = contains slash filename.
Proof.
  unfold Sys.dirname. destruct (contains slash filename) eqn:Hslash.
  - pose proof (upto_last_present _ _ Hslash) as Hhead. rewrite Hhead.
    destruct (forallb _ _) eqn:Hall; cbn; [exact Hhead|].
    now apply rstrip_kept.
  - now rewrite (upto_last_absent _ _ Hslash).
Qed.

(** X19. A bare file name is never written.  For a file name without a
    slash, such as [metrics.json], the directory creation of
    [save_metrics_to_file] fails; the function logs, returns normally and
    leaves the world as it was, so the caller cannot tell that nothing was
    saved. *)
Theorem save_bare_name_writes_nothing `{JsonLib float}
    (self : AWSBillingCollector) (metrics : list BillingMetric)
    (filename : string) (w : World) :
  contains slash filename = false ->
  save_metrics_to_file self metrics filename w = (tt, w).
Proof.
  intros Hbare. unfold save_metrics_to_file.
  now rewrite dirname_truthy, Hbare.
Qed.

Lemma save_bare_name_writes_nothing_witness :
  contains slash "metrics.json" = false
  /\ save_metrics_to_file demo_collector demo_billing_metrics "metrics.json"
       collector_world
     = (tt, collector_world).
Proof.
  split; [reflexivity|].
  exact (save_bare_name_writes_nothing demo_collector demo_billing_metrics
           "metrics.json" collector_world eq_refl).
Defined.

(** ** A run of the collector *)

Lemma In_collector_names_clean (name : string) :
  In name collector_metric_names -> sanitize_metric_name name = name.
Proof.
  cbn. intros Hname.
  repeat (destruct Hname as [<- | Hname]; [reflexivity|]). contradiction.
Qed.

Lemma get_current_costs_built (self : AWSBillingCollector) (days_back : Z)
    (w : World) :
  snd (get_current_costs self days_back w) = w
  /\ Forall (built_at (w_now w)) (fst (get_current_costs self days_back w)).
Proof.
  unfold get_current_costs, mbind, IO_bind, Sys.now.
  destruct (get_cost_and_usage (cloud self) (w_now w) days_back)
    as [results|]; cbn [fst snd mret IO_ret]; (split; [reflexivity|]);
    [|constructor].
  apply Forall_flat_map_intro. intros result.
  apply Forall_flat_map_intro. intros group.
  unfold group_metrics. apply Forall_app. split.
  - destruct (0 <? _)%float; [|constructor].
    apply Forall_singleton. repeat split. cbn. auto.
  - destruct (0 <? _)%float; [|constructor].
    apply Forall_singleton. repeat split. cbn. auto.
Qed.

Lemma budgets_loop_built (self : AWSBillingCollector)
    (current_time : datetime) (budgets : list Budget) :
  forall metrics : list BillingMetric,
  Forall (built_at current_time) metrics ->
  Forall (built_at current_time)
         (budgets_loop self current_time budgets metrics).
Proof.
  induction budgets as [|budget rest IH]; intros metrics Hmetrics;
    [exact Hmetrics|].
  cbn [budgets_loop].
  destruct (describe_budget_performance_history _ _ _) as [history|];
    [|exact Hmetrics].
  destruct (last history) as [latest|]; [|now apply IH].
  rewrite utilization_value. apply IH.
  repeat (apply Forall_app; split); try exact Hmetrics.
  - repeat (apply Forall_cons; split; [repeat split; cbn; auto 10|]).
    constructor.
  - apply Forall_singleton. repeat split. cbn. auto 10.
Qed.

Lemma get_budget_metrics_built (self : AWSBillingCollector) (w : World) :
  snd (get_budget_metrics self w) = w
  /\ Forall (built_at (w_now w)) (fst (get_budget_metrics self w)).
Proof.
  unfold get_budget_metrics, mbind, IO_bind, Sys.now.
  destruct (describe_budgets (cloud self) (account_id self)) as [budgets|];
    cbn [fst snd mret IO_ret]; (split; [reflexivity|]); [|constructor].
  apply budgets_loop_built. constructor.
Qed.

Section CollectorRun.
Context `{Boto3} `{PySet} `{JsonLib float}.

Lemma get_cloudwatch_billing_metrics_built (self : AWSBillingCollector)
    (cloudwatch : CloudWatchClient) (w : World) :
  Forall (built_at (w_now w))
         (fst (get_cloudwatch_billing_metrics self cloudwatch w)).
Proof.
  destruct (get_metric_statistics cloudwatch (w_now w)
              [mkDimension "Currency" "USD"]) as [totals|] eqn:Htotals.
  - rewrite (get_cloudwatch_billing_metrics_ok self cloudwatch w totals Htotals).
    apply Forall_app. split.
    + apply Forall_map, Forall_true. intros datapoint.
      repeat split. cbn. auto.
    + destruct (list_metrics cloudwatch) as [listed|]; [|constructor].
      apply Forall_flat_map_intro. intros service. unfold service_metrics.
      destruct (get_metric_statistics cloudwatch (w_now w)
                  [mkDimension "Currency" "USD";
                   mkDimension "ServiceName" service]); [|constructor].
      apply Forall_map, Forall_true. intros datapoint.
      repeat split. cbn. auto.
  - unfold get_cloudwatch_billing_metrics, mbind, IO_bind, Sys.now.
    rewrite Htotals. constructor.
Qed.

Lemma collected_built (collector : AWSBillingCollector)
    (cloudwatch : CloudWatchClient) (w : World) :
  Forall (built_at (w_now w)) (collected collector cloudwatch w).
Proof.
  unfold collected. repeat (apply Forall_app; split).
  - apply get_current_costs_built.
  - apply get_cloudwatch_billing_metrics_built.
  - destruct (truthy (account_id collector)); [|constructor].
    apply get_budget_metrics_built.
Qed.

Lemma collector_main_run (w : World) (the_cloud : Cloud)
    (cloudwatch : CloudWatchClient) :
  boto3_clients (default "us-east-1" (w_env w !! "AWS_REGION"))
  = ApiOk (the_cloud, cloudwatch) ->
  let collector :=
    mkCollector (default "us-east-1" (w_env w !! "AWS_REGION"))
                (default "" (w_env w !! "AWS_ACCOUNT_ID")) the_cloud in
  CollectBillingData.main w
  = (Some tt,
     snd (save_metrics_to_file collector (collected collector cloudwatch w)
            "data/billing_metrics.json" w)).
Proof.
  intros Hclients collector.
  unfold CollectBillingData.main, CollectBillingData.init, mbind, IO_bind,
    Sys.getenv_default.
  rewrite Hclients. cbn [mret IO_ret fst snd]. fold collector.
  pose proof (get_current_costs_built collector 2 w) as [Hcosts _].
  destruct (get_current_costs collector 2 w) as [costs w1] eqn:Hrun1.
  cbn [snd] in Hcosts. subst w1.
  pose proof (get_cloudwatch_billing_metrics_world collector cloudwatch w)
    as Hcharges.
  destruct (get_cloudwatch_billing_metrics collector cloudwatch w)
    as [charges w2] eqn:Hrun2.
  cbn [snd] in Hcharges. subst w2.
  unfold collected. rewrite Hrun1, Hrun2. cbn [fst].
  destruct (truthy (account_id collector)).
  - pose proof (get_budget_metrics_built collector w) as [Hbudgets _].
    destruct (get_budget_metrics collector w) as [budgets w3].
    cbn [snd] in Hbudgets. subst w3. cbn [fst].
    now destruct (save_metrics_to_file collector _ _ w) as [[] w4].
  - cbn [mret IO_ret fst snd].
    now destruct (save_metrics_to_file collector _ _ w) as [[] w4].
Qed.


Context `{!JsonRoundTrip float}.

(** X21. What the collector writes is what the delivery stage reads.  After
    a run of the collector with working clients, [load_metrics_from_file]
    returns one record per collected metric, in order; every record carries
    the time of the run as its timestamp, has labels, a help text that is
    not empty and has no line break, and a name that
    [sanitize_metric_name] leaves as it is.  The [json] library is taken to
    read back what it wrote. *)
Theorem collected_snapshot_is_delivered (w : World) (the_cloud : Cloud)
    (cloudwatch : CloudWatchClient) :
  boto3_clients (default "us-east-1" (w_env w !! "AWS_REGION"))
  = ApiOk (the_cloud, cloudwatch) ->
  valid (w_now w) = true ->
  let collector :=
    mkCollector (default "us-east-1" (w_env w !! "AWS_REGION"))
                (default "" (w_env w !! "AWS_ACCOUNT_ID")) the_cloud in
  let loaded :=
    fst (load_metrics_from_file "data/billing_metrics.json"
           (snd (CollectBillingData.main w))) in
  map md_name loaded = map bm_name (collected collector cloudwatch w)
  /\ map md_value loaded = map bm_value (collected collector cloudwatch w)
  /\ map md_labels loaded
     = map (fun metric => Some (bm_labels metric))
           (collected collector cloudwatch w)
  /\ Forall (fun record =>
               fromisoformat (md_timestamp record) = Some (w_now w)
               /\ sanitize_metric_name (md_name record) = md_name record
               /\ exists help_text,
                    md_help_text record = Some help_text
                    /\ truthy help_text = true
                    /\ contains newline help_text = false)
            loaded.
Proof.
  intros Hclients Hvalid collector loaded. subst loaded.
  rewrite (collector_main_run w the_cloud cloudwatch Hclients). cbn [snd].
  fold collector. rewrite load_after_save by reflexivity.
  rewrite !map_map. cbn [metric_dict md_name md_value md_labels].
  repeat split.
  apply Forall_map.
  eapply Forall_impl; [apply (collected_built collector cloudwatch w)|].
  intros metric (Htime & Hname & Hhelp & Hline).
  cbn [metric_dict md_name md_timestamp md_help_text].
  rewrite Htime. split; [now apply fromisoformat_isoformat|].
  split; [now apply In_collector_names_clean|].
  now exists (bm_help_text metric).
Qed.

End CollectorRun.

Lemma collected_snapshot_is_delivered_witness :
  let collector := mkCollector "us-east-1" "123456789012" demo_cloud in
  let loaded :=
    fst (load_metrics_from_file "data/billing_metrics.json"
           (snd (CollectBillingData.main (H := demo_boto3)
                   (H0 := first_seen_order) collector_world))) in
  valid (w_now collector_world) = true
  /\ map md_name loaded
     = map bm_name (collected (H := first_seen_order) collector
                      demo_cloudwatch collector_world)
  /\ map md_value loaded
     = map bm_value (collected (H := first_seen_order) collector
                       demo_cloudwatch collector_world)
  /\ map md_labels loaded
     = map (fun metric => Some (bm_labels metric))
           (collected (H := first_seen_order) collector demo_cloudwatch
              collector_world)
  /\ Forall (fun record =>
               fromisoformat (md_timestamp record)
               = Some (w_now collector_world)
               /\ sanitize_metric_name (md_name record) = md_name record
               /\ exists help_text,
                    md_help_text record = Some help_text
                    /\ truthy help_text = true
                    /\ contains newline help_text = false)
            loaded.
Proof.
  split; [reflexivity|].
  exact (collected_snapshot_is_delivered (H := demo_boto3)
           (H0 := first_seen_order) collector_world demo_cloud
           demo_cloudwatch eq_refl eq_refl).
Defined.

(** ** Concrete runs of the delivery and of the gateway check *)

Lemma steady_world_loads :
  fst (load_metrics_from_file "data/billing_metrics.json" steady_world)
  = [cost_s3; total_cost; cost_ec2].
Proof.
  unfold load_metrics_from_file, mbind, IO_bind, Sys.read_file, steady_world.
  cbn [w_files]. rewrite lookup_singleton_eq.
  now rewrite (json_load_dump [cost_s3; total_cost; cost_ec2]).
Qed.

Lemma main_batch_success_witness :
  let pusher := PrometheusPusher.init "http://gateway:9091/"
                  "aws-billing-collector" in
  let metrics_data := [cost_s3; total_cost; cost_ec2] in
  fst (load_metrics_from_file "data/billing_metrics.json" steady_world)
  = metrics_data
  /\ fst (main (V := Z) steady_world) = true
  /\ w_exchanges (snd (main (V := Z) steady_world))
     = [(mkRequest GET (urljoin (pushgateway_url pusher) "/-/healthy") [] "",
         Response 200 "OK");
        (push_request pusher metrics_data (Some "github-actions"),
         Response 200 "OK")]
  /\ w_sleeps (snd (main (V := Z) steady_world)) = 0
  /\ w_files (snd (main (V := Z) steady_world))
     = <["data/push_summary.json"
         := json_dump_summary
              (mkSummary (isoformat demo_time) 3 "http://gateway:9091/"
                         "aws-billing-collector" "github-actions" "success")]>
         (w_files steady_world).
Proof.
  split; [exact steady_world_loads|].
  apply (main_batch_success (V := Z) steady_world "http://gateway:9091/"
           [cost_s3; total_cost; cost_ec2]);
    [reflexivity | reflexivity | exact steady_world_loads | discriminate
    | reflexivity].
Defined.

Lemma test_gateway_requests_witness :
  let run := TestSetup.test_prometheus_pushgateway steady_world in
  let push_url := "http://gateway:9091/metrics/job/test" in
  w_env steady_world !! "PROMETHEUS_PUSHGATEWAY_URL"
  = Some "http://gateway:9091/"
  /\ exists log : list (Request * Outcome),
       w_exchanges (snd run) = w_exchanges steady_world ++ log
       /\ log <> []
       /\ map fst log
          `prefix_of`
          [mkRequest GET "http://gateway:9091/-/healthy" [] "";
           mkRequest POST push_url
             [("Content-Type", "text/plain; version=0.0.4")]
             TestSetup.test_metric;
           mkRequest DELETE push_url [] ""]
       /\ (fst run = true
           <-> exists t1 t2 c3 t3,
                 map snd log
                 = [Response 200 t1; Response 200 t2; Response c3 t3]).
Proof.
  split; [reflexivity|].
  exact (test_gateway_requests steady_world "http://gateway:9091/" eq_refl
           eq_refl).
Defined.
